(** * lnagb.js: Algebra.linearCombination and the IdentityMatrix class

    A shallow embedding of [src/algebra/Algebra.js] and
    [src/matrices/IdentityMatrix.js].

    - A JavaScript number is an IEEE 754 binary64 value: [float], with the
      kernel's [+] and [*] (round to nearest, ties to even), which is the
      arithmetic JavaScript's [+] and [*] perform on numbers.
    - Sizes and loop bounds are natural numbers; positions handed to the
      accessors ([r], [c]) and to callbacks are integers ([Z]), so that
      positions below 1 can be written down.
    - A call either returns or throws: [completion]. *)

From Stdlib Require Import ZArith List Lia Bool Arith String Floats.
From Equations Require Import Equations.
Import ListNotations.

(** ** Completions *)

(** The errors a call can end with. [TypeError] and [RangeError] are raised
    by the JavaScript runtime itself; the other four are the error kinds of
    the library's documentation.  No [throw] statement occurs in either
    source file. *)
Inductive error : Type :=
| TypeError
| RangeError
| DimensionMismatch
| IndexOutOfRange
| InvalidScalar
| Unsupported.

Inductive completion (A : Type) : Type :=
| Return (a : A)
| Throw (e : error).

Arguments Return {A} a.
Arguments Throw {A} e.

Definition bind {A B} (c : completion A) (k : A -> completion B) : completion B :=
  match c with
  | Return a => k a
  | Throw e => Throw e
  end.

Declare Scope completion_scope.
Delimit Scope completion_scope with completion.
Notation "x <- c ;; k" := (bind c (fun x => k))
  (at level 61, c at next level, right associativity) : completion_scope.
Notation "' pat <- c ;; k" := (bind c (fun x => match x with pat => k end))
  (at level 61, pat pattern, c at next level, right associativity) : completion_scope.
Open Scope completion_scope.

(** [for (let i = start; i < start + count; i ++) body], for a body that
    assigns neither [i] nor the bound; the loop stops at the first throw. *)
Fixpoint for_loop {S : Type} (count : nat) (i : nat)
    (body : nat -> S -> completion S) (s : S) : completion S :=
  match count with
  | O => Return s
  | Datatypes.S k => s' <- body i s ;; for_loop k (Datatypes.S i) body s'
  end.

(** The callback applied to each element of a list in turn, threading the
    callback's state and stopping at the first throw. *)
Fixpoint foldM {X S : Type} (f : X -> S -> completion S) (l : list X) (s : S)
    : completion S :=
  match l with
  | [] => Return s
  | x :: t => s' <- f x s ;; foldM f t s'
  end.

(** ** Algebra.js *)

Module Algebra.

(** What an indexed read of an array of numbers evaluates to. *)
Inductive value : Type :=
| Undefined
| Number (x : float).

(** [a[i]]: the element, or [undefined] past the end. *)
Definition get (a : list float) (i : nat) : value :=
  match nth_error a i with
  | Some x => Number x
  | None => Undefined
  end.

(** ToNumber: [undefined] converts to NaN. *)
Definition ToNumber (v : value) : float :=
  match v with
  | Number x => x
  | Undefined => nan
  end.

(** [a * b] on two values. *)
Definition js_mul (a b : value) : float := (ToNumber a * ToNumber b)%float.

(** [Array.prototype.reduce(callback, initial)] on a dense array: the
    callback receives the accumulator, the element and its index. *)
Fixpoint reduce_from {A B : Type} (callback : B -> A -> nat -> B)
    (l : list A) (i : nat) (acc : B) : B :=
  match l with
  | [] => acc
  | v :: t => reduce_from callback t (S i) (callback acc v i)
  end.

Definition reduce {A B : Type} (callback : B -> A -> nat -> B)
    (l : list A) (initial : B) : B :=
  reduce_from callback l 0 initial.

(** [linearCombination(p, q)]:
    [p.reduce((result, v, i) => result + p[i] * q[i], 0)]. *)
Definition linearCombination (p q : list float) : completion float :=
  Return (reduce (fun result v i => (result + js_mul (get p i) (get q i))%float)
                 p 0%float).

(** The documented result, for comparison with the code: the sum over
    [i < n] of the products, the terms added in index order starting from
    0 (floating-point addition is not associative, so the order is part of
    the meaning). *)
Fixpoint sum_upto (n : nat) (term : nat -> float) : float :=
  match n with
  | O => 0%float
  | S k => (sum_upto k term + term k)%float
  end.

Definition dot_product (p q : list float) : float :=
  sum_upto (List.length p) (fun i => (nth i p 0 * nth i q 0)%float).

End Algebra.

(** ** JavaScript arrays *)

(** An array as the matrix code uses it: its indexed slots, each either
    filled or a hole (what [new Array(n)] creates and what a write past the
    end leaves behind), and the properties stored under keys that are not
    array indices (a write at a negative position). *)
Module JSArray.

Record t (A : Type) : Type := mk {
  cells : list (option A);
  props : list (Z * A)
}.

Arguments mk {A} cells props.
Arguments cells {A} _.
Arguments props {A} _.

(** The largest length of an array, 2^32 - 1. *)
Definition max_length : Z := 4294967295.

Definition length {A} (a : t A) : nat := List.length (cells a).

(** [[]] *)
Definition empty {A} : t A := mk [] [].

(** [new Array(len)]: [len] holes; RangeError when [len] is not an array
    length. *)
Definition create {A} (len : nat) : completion (t A) :=
  if (Z.of_nat len <=? max_length)%Z
  then Return (mk (repeat None len) [])
  else Throw RangeError.

(** [a.fill(v)]: every slot below the length, hole or not, becomes [v]. *)
Definition fill {A} (a : t A) (v : A) : t A :=
  mk (map (fun _ => Some v) (cells a)) (props a).

Fixpoint update {X} (l : list X) (k : nat) (x : X) : list X :=
  match l, k with
  | [], _ => []
  | _ :: rest, O => x :: rest
  | y :: rest, S k' => y :: update rest k' x
  end.

Definition is_index (i : Z) : bool := ((0 <=? i) && (i <? max_length))%Z.

(** [a[i] = v] for an integer [i]: inside the array the slot is replaced;
    past the end the array grows, holes in between; a position that is not
    an array index becomes an ordinary property and the length stays. *)
Definition set {A} (a : t A) (i : Z) (v : A) : t A :=
  if is_index i then
    let k := Z.to_nat i in
    if k <? length a
    then mk (update (cells a) k (Some v)) (props a)
    else mk (cells a ++ repeat None (k - length a) ++ [Some v]) (props a)
  else mk (cells a) ((i, v) :: props a).

Fixpoint lookup {A} (l : list (Z * A)) (i : Z) : option A :=
  match l with
  | [] => None
  | (k, v) :: rest => if (k =? i)%Z then Some v else lookup rest i
  end.

(** [a[i]]: [None] stands for [undefined]. *)
Definition get {A} (a : t A) (i : Z) : option A :=
  if is_index i then
    match nth_error (cells a) (Z.to_nat i) with
    | Some slot => slot
    | None => None
    end
  else lookup (props a) i.

(** [a.push(v)] *)
Definition push {A} (a : t A) (v : A) : t A :=
  mk (cells a ++ [Some v]) (props a).

(** [a.slice()]: a new array with the same slots. *)
Definition slice {A} (a : t A) : t A := mk (cells a) [].

End JSArray.

(** ** IdentityMatrix.js *)

(** The [size] object, [{ rows, columns }]. *)
Module Size.
Record t : Type := mk { rows : nat; columns : nat }.
End Size.

Module IdentityMatrix.

(** An instance, with the properties the constructor assigns. *)
Record t : Type := mk {
  size : Size.t;
  numberOfEntries : nat;
  elements : JSArray.t float;
  rank : nat;
  rows : JSArray.t (JSArray.t float);
  columns : JSArray.t (JSArray.t float)
}.

(** The constructor's first loop,
    [for (index = 0, _size = size + 1, _n = numberOfEntries; index < _n;
          index += _size) elements[index] = 1]. *)
Equations? fill_diagonal (elements : JSArray.t float) (index size _n : nat)
  : JSArray.t float by wf (_n - index) lt :=
fill_diagonal elements index size _n with lt_dec index _n := {
  | left _ =>
      fill_diagonal (JSArray.set elements (Z.of_nat index) 1%float)
                    (index + (size + 1)) size _n
  | right _ => elements }.
Proof. lia. Qed.

(** [let row = new Array(size).fill(0); row[i] = 1], the row that the
    constructor, [row] and [forEachRow] each build. *)
Definition unit_row (size : nat) (i : Z) : completion (JSArray.t float) :=
  row <- JSArray.create size ;;
  let row := JSArray.fill row 0%float in
  let row := JSArray.set row i 1%float in
  Return row.

(** [new IdentityMatrix(size)] *)
Definition constructor (size : nat) : completion t :=
  let size_ := Size.mk size size in
  let numberOfEntries := size * size in
  elements <- JSArray.create numberOfEntries ;;
  let elements := JSArray.fill elements 0%float in
  let elements := fill_diagonal elements 0 size numberOfEntries in
  let rank := size in
  rows <- for_loop size 0
            (fun i rows =>
               row <- unit_row size (Z.of_nat i) ;;
               Return (JSArray.push rows row))
            JSArray.empty ;;
  let columns := JSArray.slice rows in
  Return (mk size_ numberOfEntries elements rank rows columns).

(** [clone()]: [new this.constructor(this.size.rows)] *)
Definition clone (this : t) : completion t :=
  constructor (Size.rows (size this)).

(** [get transpose()]: [this.clone()] *)
Definition transpose (this : t) : completion t := clone this.

(** [entry(r, c)]: [(r === c) ? 1 : 0] *)
Definition entry (this : t) (r c : Z) : completion float :=
  Return (if (r =? c)%Z then 1%float else 0%float).

(** [row(r)] *)
Definition row (this : t) (r : Z) : completion (JSArray.t float) :=
  let size := Size.rows (size this) in
  unit_row size (r - 1)%Z.

(** [column(c)]: [this.row(c)] *)
Definition column (this : t) (c : Z) : completion (JSArray.t float) :=
  row this c.

(** [mainDiagonal()]: [new Array(this.size.rows).fill(1)] *)
Definition mainDiagonal (this : t) : completion (JSArray.t float) :=
  a <- JSArray.create (Size.rows (size this)) ;;
  Return (JSArray.fill a 1%float).

(** [leadingCoefficient(r)] *)
Definition leadingCoefficient (this : t) (r : Z) : completion float :=
  Return 1%float.

Section Iterators.
(** [T] is the type of [thisArg]; [St] is whatever the callback can read and
    write, the instance itself apart: the iterators read the size once,
    before the first call, and hand the same instance to every call.  A
    callback either returns, leaving a new state, or throws. *)
Context {T St : Type}.

(** The body of [forEach]'s loop: one call of the callback, then the
    column counter [c] advances and wraps into the next row [r]. *)
Definition forEach_step
    (callback : T -> float -> Z -> Z -> Z -> t -> St -> completion St)
    (thisArg : T) (matrix : t) (_nCols : nat)
    (index : nat) (state : Z * Z * St) : completion (Z * Z * St) :=
  let '(r, c, s) := state in
  let entry := if (r =? c)%Z then 1%float else 0%float in
  s <- callback thisArg entry r c (Z.of_nat index) matrix s ;;
  let c := (c + 1)%Z in
  if (c >? Z.of_nat _nCols)%Z
  then Return ((r + 1)%Z, 1%Z, s)
  else Return (r, c, s).

(** [forEach(callback, thisArg)] *)
Definition forEach (this : t)
    (callback : T -> float -> Z -> Z -> Z -> t -> St -> completion St)
    (thisArg : T) (s : St) : completion St :=
  let matrix := this in
  let _size := size this in
  let _nCols := Size.columns _size in
  let _n := _nCols * _nCols in
  '(_, _, s) <- for_loop _n 0
       (forEach_step callback thisArg matrix _nCols) (1%Z, 1%Z, s) ;;
  Return s.

(** [forEachRow(callback, thisArg)] *)
Definition forEachRow (this : t)
    (callback : T -> JSArray.t float -> Z -> t -> St -> completion St)
    (thisArg : T) (s : St) : completion St :=
  let matrix := this in
  let _nRows := Size.rows (size this) in
  for_loop _nRows 0
    (fun i s =>
       let r := (Z.of_nat i + 1)%Z in
       row <- unit_row _nRows (Z.of_nat i) ;;
       callback thisArg row r matrix s)
    s.

(** [forEachColumn(callback, thisArg)]: [this.forEachRow(callback, thisArg)] *)
Definition forEachColumn (this : t)
    (callback : T -> JSArray.t float -> Z -> t -> St -> completion St)
    (thisArg : T) (s : St) : completion St :=
  forEachRow this callback thisArg s.

End Iterators.

(** The methods declared in the class body. *)
Definition class_methods : list string :=
  ["clone"; "entry"; "row"; "column"; "mainDiagonal"; "leadingCoefficient";
   "forEach"; "forEachRow"; "forEachColumn"]%string.

(** The methods every object inherits from [Object.prototype]. *)
Definition inherited_methods : list string :=
  ["hasOwnProperty"; "isPrototypeOf"; "propertyIsEnumerable";
   "toLocaleString"; "toString"; "valueOf";
   "__defineGetter__"; "__defineSetter__";
   "__lookupGetter__"; "__lookupSetter__"]%string.

(** The first step of a method call [m.name(...)] on an instance: the
    property is read and must be a function.  The class adds no other
    function-valued property (its instance properties are data, [transpose]
    is a getter that yields an instance, and [constructor] is a class, which
    cannot be called without [new]), so every other name ends the call with
    the runtime's TypeError before any code of the class runs. *)
Definition resolve_callee (this : t) (name : string) : completion string :=
  if existsb (String.eqb name) (class_methods ++ inherited_methods)
  then Return name
  else Throw TypeError.

(** [m.elements[i] = v] from outside the class: [elements] is an ordinary
    array that the constructor never freezes, so the write goes through. *)
Definition assign_element (this : t) (i : Z) (v : float) : completion t :=
  Return (mk (size this) (numberOfEntries this)
             (JSArray.set (elements this) i v)
             (rank this) (rows this) (columns this)).

(** *** Reference descriptions, for comparison with the code *)

(** The closed form of an identity matrix's entries. *)
Definition kronecker (r c : Z) : float :=
  if (r =? c)%Z then 1%float else 0%float.

(** Row [r] of the identity matrix of size [n]: the entries at columns
    1 to [n], as a dense array. *)
Definition basis_row (n : nat) (r : Z) : JSArray.t float :=
  JSArray.mk (map (fun c => Some (kronecker r (Z.of_nat c))) (seq 1 n)) [].

(** The arguments of the call [forEach] is to make at position (r, c):
    entry, row number, column number, flat 0-indexed index, matrix. *)
Definition forEach_call (this : t) (r c : nat) : float * Z * Z * Z * t :=
  let n := Size.rows (size this) in
  (kronecker (Z.of_nat r) (Z.of_nat c), Z.of_nat r, Z.of_nat c,
   ((Z.of_nat r - 1) * Z.of_nat n + (Z.of_nat c - 1))%Z, this).

(** The calls [forEach] is to make, in order: row 1 from column 1 to
    column [n], then row 2, and so on (row-major). *)
Definition forEach_calls (this : t) : list (float * Z * Z * Z * t) :=
  let n := Size.rows (size this) in
  flat_map (fun r => map (forEach_call this r) (seq 1 n)) (seq 1 n).

(** The calls [forEachRow] is to make, in order: row, row number,
    matrix. *)
Definition forEachRow_calls (this : t) : list (JSArray.t float * Z * t) :=
  let n := Size.rows (size this) in
  map (fun r => (basis_row n (Z.of_nat r), Z.of_nat r, this)) (seq 1 n).

(** Column [c] of the identity matrix of size [n]: the entries at rows 1
    to [n]. *)
Definition basis_column (n : nat) (c : Z) : JSArray.t float :=
  JSArray.mk (map (fun r => Some (kronecker (Z.of_nat r) c)) (seq 1 n)) [].

(** The calls [forEachColumn] is to make, in order: column, column number,
    matrix. *)
Definition forEachColumn_calls (this : t) : list (JSArray.t float * Z * t) :=
  let n := Size.columns (size this) in
  map (fun c => (basis_column n (Z.of_nat c), Z.of_nat c, this)) (seq 1 n).

(** A callback applied to the arguments of one call. *)
Definition apply_entry_callback {T St}
    (callback : T -> float -> Z -> Z -> Z -> t -> St -> completion St)
    (thisArg : T) (args : float * Z * Z * Z * t) (s : St) : completion St :=
  let '(entry, r, c, index, matrix) := args in
  callback thisArg entry r c index matrix s.

Definition apply_row_callback {T St}
    (callback : T -> JSArray.t float -> Z -> t -> St -> completion St)
    (thisArg : T) (args : JSArray.t float * Z * t) (s : St) : completion St :=
  let '(row, r, matrix) := args in
  callback thisArg row r matrix s.

(** The value of [new IdentityMatrix(n)] when it returns
    ([constructor_in_range] below): the size, the elements as the diagonal
    loop leaves them on an array of zeros, the rank, and the rows (and
    columns) as arrays of basis rows. *)
Definition zeros (len : nat) : JSArray.t float :=
  JSArray.fill (JSArray.mk (repeat None len) []) 0%float.

Definition basis_rows (n : nat) : JSArray.t (JSArray.t float) :=
  JSArray.mk (map (fun r => Some (basis_row n (Z.of_nat r))) (seq 1 n)) [].

Definition identity (n : nat) : t :=
  mk (Size.mk n n) (n * n) (fill_diagonal (zeros (n * n)) 0 n (n * n)) n
     (basis_rows n) (basis_rows n).

(** A callback that appends its arguments to a log. *)
Definition log_entry (_ : unit) (entry : float) (r c index : Z) (matrix : t)
    (log : list (float * Z * Z * Z * t)) : completion (list (float * Z * Z * Z * t)) :=
  Return (log ++ [(entry, r, c, index, matrix)]).

Definition log_row (_ : unit) (row : JSArray.t float) (r : Z) (matrix : t)
    (log : list (JSArray.t float * Z * t)) : completion (list (JSArray.t float * Z * t)) :=
  Return (log ++ [(row, r, matrix)]).

End IdentityMatrix.

(** ** Further reference descriptions *)

(** The elements of an array without holes, as a sequence; [None] when
    the array has a hole. *)
Fixpoint dense {A : Type} (slots : list (option A)) : option (list A) :=
  match slots with
  | [] => Some []
  | Some x :: rest => option_map (cons x) (dense rest)
  | None :: _ => None
  end.

(** The first entry of a row that is not zero, if there is one. *)
Fixpoint first_nonzero (slots : list (option float)) : option float :=
  match slots with
  | [] => None
  | Some x :: rest => if (x =? 0)%float then first_nonzero rest else Some x
  | None :: rest => first_nonzero rest
  end.

(** The rows of an array of rows laid end to end. *)
Definition flatten_rows (rows : JSArray.t (JSArray.t float)) : list (option float) :=
  flat_map (fun slot => match slot with
                        | Some row => JSArray.cells row
                        | None => []
                        end)
           (JSArray.cells rows).

(** The flat index among the arguments of a call made by [forEach]. *)
Definition call_index (args : float * Z * Z * Z * IdentityMatrix.t) : Z :=
  let '(_, _, _, index, _) := args in index.

(** ** Facts on binary64 arithmetic *)

Lemma add_nan_r (x : float) : (x + nan)%float = nan.
Proof.
  apply Prim2SF_inj. rewrite add_spec.
  change (Prim2SF nan) with S754_nan.
  destruct (Prim2SF x); reflexivity.
Qed.

Lemma add_nan_l (x : float) : (nan + x)%float = nan.
Proof.
  apply Prim2SF_inj. rewrite add_spec.
  change (Prim2SF nan) with S754_nan. reflexivity.
Qed.

Lemma mul_nan_r (x : float) : (x * nan)%float = nan.
Proof.
  apply Prim2SF_inj. rewrite mul_spec.
  change (Prim2SF nan) with S754_nan.
  destruct (Prim2SF x); reflexivity.
Qed.

(** ** linearCombination *)

Section LinearCombination.
Import Algebra.

Lemma reduce_from_snoc {A B} (f : B -> A -> nat -> B) l x i acc :
  reduce_from f (l ++ [x]) i acc = f (reduce_from f l i acc) x (i + List.length l).
Proof.
  revert i acc. induction l as [|y l IH]; intros i acc; simpl.
  - now rewrite Nat.add_0_r.
  - rewrite IH. f_equal. lia.
Qed.

(** A reduction whose callback adds a term that depends on the index only
    is the sum of those terms in index order. *)
Lemma reduce_sum_upto {A} (term : nat -> float) (l : list A) :
  reduce (fun result _ i => (result + term i)%float) l 0%float
  = sum_upto (List.length l) term.
Proof.
  unfold reduce. induction l as [|x l IH] using rev_ind.
  - reflexivity.
  - rewrite reduce_from_snoc, IH, length_app. simpl.
    rewrite Nat.add_1_r. reflexivity.
Qed.

Lemma sum_upto_ext n f g :
  (forall i, i < n -> f i = g i) -> sum_upto n f = sum_upto n g.
Proof.
  induction n as [|n IH]; intros H; simpl.
  - reflexivity.
  - rewrite IH by (intros; apply H; lia). rewrite (H n) by lia. reflexivity.
Qed.

Lemma sum_upto_nan n f k :
  k < n -> f k = nan -> sum_upto n f = nan.
Proof.
  induction n as [|n IH]; intros Hk Hf; [lia|]. simpl.
  destruct (Nat.eq_dec k n) as [->|Hne].
  - rewrite Hf. apply add_nan_r.
  - rewrite IH by (auto; lia). apply add_nan_l.
Qed.

Lemma get_in_range a i : i < List.length a -> get a i = Number (nth i a 0%float).
Proof.
  intros H. unfold get.
  rewrite (nth_error_nth' a 0%float H). reflexivity.
Qed.

Lemma get_past_end a i : List.length a <= i -> get a i = Undefined.
Proof.
  intros H. unfold get.
  apply nth_error_None in H. now rewrite H.
Qed.

Lemma linearCombination_sum p q :
  linearCombination p q
  = Return (sum_upto (List.length p) (fun i => js_mul (get p i) (get q i))).
Proof.
  unfold linearCombination. f_equal.
  apply (reduce_sum_upto (fun i => js_mul (get p i) (get q i)) p).
Qed.

Lemma linearCombination_short_p p q :
  List.length p <= List.length q ->
  linearCombination p q = Return (dot_product p q).
Proof.
  intros H. rewrite linearCombination_sum. f_equal.
  apply sum_upto_ext. intros i Hi.
  rewrite !get_in_range by lia. reflexivity.
Qed.

Lemma linearCombination_long_p p q :
  List.length q < List.length p -> linearCombination p q = Return nan.
Proof.
  intros H. rewrite linearCombination_sum. f_equal.
  apply sum_upto_nan with (k := List.length q); [exact H|].
  rewrite (get_past_end q) by lia. unfold js_mul. simpl.
  apply mul_nan_r.
Qed.

Lemma dot_product_firstn p q :
  dot_product p (firstn (List.length p) q) = dot_product p q.
Proof.
  unfold dot_product. apply sum_upto_ext. intros i Hi.
  f_equal. rewrite <- (firstn_skipn (List.length p) q) at 2.
  destruct (le_lt_dec (List.length q) (List.length p)) as [Hle|Hlt].
  - rewrite firstn_all2 by exact Hle.
    rewrite skipn_all2 by exact Hle. now rewrite app_nil_r.
  - rewrite app_nth1; [reflexivity|].
    rewrite length_firstn. lia.
Qed.

End LinearCombination.

(** ** JavaScript arrays: the rows the class builds *)

Section UnitRows.
Import IdentityMatrix.

Lemma bind_assoc {A B C} (c : completion A) (f : A -> completion B)
    (g : B -> completion C) :
  bind (bind c f) g = bind c (fun a => bind (f a) g).
Proof. destruct c; reflexivity. Qed.

Lemma create_Return {A} len (a : JSArray.t A) :
  JSArray.create len = Return a ->
  (Z.of_nat len <= JSArray.max_length)%Z /\ a = JSArray.mk (repeat None len) [].
Proof.
  unfold JSArray.create.
  destruct (Z.leb_spec (Z.of_nat len) JSArray.max_length) as [Hle|Hgt];
    intros H; inversion H; auto.
Qed.

Lemma create_in_range {A} len :
  (Z.of_nat len <= JSArray.max_length)%Z ->
  JSArray.create len = Return (@JSArray.mk A (repeat None len) []).
Proof.
  intros H. unfold JSArray.create.
  destruct (Z.leb_spec (Z.of_nat len) JSArray.max_length); [reflexivity|lia].
Qed.

Lemma kronecker_diag r : kronecker r r = 1%float.
Proof. unfold kronecker. now rewrite Z.eqb_refl. Qed.

Lemma kronecker_off r c : r <> c -> kronecker r c = 0%float.
Proof.
  intros H. unfold kronecker.
  destruct (Z.eqb_spec r c); [contradiction|reflexivity].
Qed.

(** A row of zeros is the part of a row of the identity matrix that lies
    strictly to one side of the diagonal. *)
Lemma zeros_off_diagonal n start (r : Z) :
  (forall c, start <= c < start + n -> r <> Z.of_nat c) ->
  map (fun _ : option float => Some 0%float) (repeat None n)
  = map (fun c => Some (kronecker r (Z.of_nat c))) (seq start n).
Proof.
  revert start. induction n as [|n IH]; intros start H; simpl.
  - reflexivity.
  - rewrite kronecker_off by (apply H; lia).
    f_equal. apply IH. intros c Hc. apply H. lia.
Qed.

Lemma update_zeros n start i :
  i < n ->
  JSArray.update (map (fun _ : option float => Some 0%float) (repeat None n))
                 i (Some 1%float)
  = map (fun c => Some (kronecker (Z.of_nat (start + i)) (Z.of_nat c)))
        (seq start n).
Proof.
  revert start i. induction n as [|n IH]; intros start i Hi; [lia|].
  destruct i as [|i]; simpl.
  - rewrite Nat.add_0_r, kronecker_diag. f_equal.
    apply zeros_off_diagonal. intros c Hc. lia.
  - rewrite kronecker_off by lia. f_equal.
    replace (start + S i) with (S start + i) by lia.
    apply IH. lia.
Qed.

Lemma unit_row_in_range n i :
  (Z.of_nat n <= JSArray.max_length)%Z -> i < n ->
  unit_row n (Z.of_nat i) = Return (basis_row n (Z.of_nat i + 1)).
Proof.
  intros Hn Hi. unfold unit_row. rewrite (@create_in_range _ _ Hn). simpl.
  unfold JSArray.set, JSArray.fill, JSArray.is_index, JSArray.length. simpl.
  rewrite length_map, repeat_length, Nat2Z.id.
  destruct (Z.leb_spec 0 (Z.of_nat i)); [|lia].
  destruct (Z.ltb_spec (Z.of_nat i) JSArray.max_length); [|lia].
  destruct (Nat.ltb_spec i n); [|lia]. simpl.
  unfold basis_row. rewrite (@update_zeros _ 1 _ Hi).
  replace (Z.of_nat i + 1)%Z with (Z.of_nat (1 + i)) by lia. reflexivity.
Qed.

(** Whatever position is asked for, building the row does not throw, as
    long as the size is an array length. *)
Lemma unit_row_returns n i :
  (Z.of_nat n <= JSArray.max_length)%Z -> exists a, unit_row n i = Return a.
Proof.
  intros Hn. unfold unit_row. rewrite (@create_in_range _ _ Hn). simpl. eauto.
Qed.

End UnitRows.

(** ** The constructor *)

Section Constructor.
Import IdentityMatrix.

Lemma rows_loop n :
  (Z.of_nat n <= JSArray.max_length)%Z ->
  forall k start (acc : JSArray.t (JSArray.t float)),
    start + k <= n ->
    for_loop k start
      (fun i rows =>
         row <- unit_row n (Z.of_nat i) ;; Return (JSArray.push rows row))
      acc
    = Return (JSArray.mk
                (JSArray.cells acc ++
                 map (fun r => Some (basis_row n (Z.of_nat r))) (seq (S start) k))
                (JSArray.props acc)).
Proof.
  intros Hn. induction k as [|k IH]; intros start acc Hk; simpl.
  - rewrite app_nil_r. now destruct acc.
  - rewrite unit_row_in_range by (auto; lia). simpl.
    rewrite IH by lia. unfold JSArray.push. simpl.
    rewrite <- app_assoc. simpl.
    replace (Z.of_nat start + 1)%Z with (Z.of_nat (S start)) by lia.
    reflexivity.
Qed.

Lemma square_bound n :
  (Z.of_nat (n * n) <= JSArray.max_length)%Z ->
  (Z.of_nat n <= JSArray.max_length)%Z.
Proof. intros H. assert (n <= n * n) by nia. lia. Qed.

(** Construction succeeds exactly when [size * size] is an array length,
    and then yields [identity size]. *)
Lemma constructor_in_range n :
  (Z.of_nat (n * n) <= JSArray.max_length)%Z ->
  constructor n = Return (identity n).
Proof.
  intros H. unfold constructor.
  rewrite (@create_in_range _ _ H). simpl.
  rewrite (rows_loop n (square_bound _ H)) by lia. simpl.
  reflexivity.
Qed.

Lemma constructor_Return n m :
  constructor n = Return m ->
  (Z.of_nat (n * n) <= JSArray.max_length)%Z /\ m = identity n.
Proof.
  intros H.
  destruct (Z.leb_spec (Z.of_nat (n * n)) JSArray.max_length) as [Hle|Hgt].
  - rewrite (constructor_in_range _ Hle) in H. inversion H. auto.
  - unfold constructor, JSArray.create in H.
    destruct (Z.leb_spec (Z.of_nat (n * n)) JSArray.max_length); [lia|].
    discriminate H.
Qed.


End Constructor.

(** ** The flat elements *)

Section Elements.
Import IdentityMatrix.

Lemma update_length {X} (l : list X) k x :
  List.length (JSArray.update l k x) = List.length l.
Proof.
  revert k. induction l as [|y l IH]; intros [|k]; simpl; auto.
Qed.

Lemma nth_error_update_same {X} (l : list X) k x :
  k < List.length l -> nth_error (JSArray.update l k x) k = Some x.
Proof.
  revert k. induction l as [|y l IH]; intros [|k] H; simpl in *; try lia.
  - reflexivity.
  - apply IH. lia.
Qed.

Lemma nth_error_update_other {X} (l : list X) k j x :
  j <> k -> nth_error (JSArray.update l k x) j = nth_error l j.
Proof.
  revert k j. induction l as [|y l IH]; intros [|k] [|j] H; simpl;
    try reflexivity; try lia.
  apply IH. lia.
Qed.

(** A write inside the array replaces one slot and nothing else. *)
Lemma set_in_range {A} (a : JSArray.t A) k v :
  k < JSArray.length a -> (Z.of_nat (JSArray.length a) <= JSArray.max_length)%Z ->
  JSArray.set a (Z.of_nat k) v
  = JSArray.mk (JSArray.update (JSArray.cells a) k (Some v)) (JSArray.props a).
Proof.
  intros Hk Hlen. unfold JSArray.set, JSArray.is_index.
  rewrite Nat2Z.id.
  destruct (Z.leb_spec 0 (Z.of_nat k)); [|lia].
  destruct (Z.ltb_spec (Z.of_nat k) JSArray.max_length); [|lia].
  destruct (Nat.ltb_spec k (JSArray.length a)); [|lia].
  reflexivity.
Qed.



End Elements.

Section DiagonalLoop.

(** What the diagonal loop leaves in each slot: a 1 at [index],
    [index + (size + 1)], ... and the previous content elsewhere. *)
Lemma fill_diagonal_slots elements index size _n :
  JSArray.length elements = _n ->
  (Z.of_nat _n <= JSArray.max_length)%Z ->
  JSArray.props (IdentityMatrix.fill_diagonal elements index size _n) = JSArray.props elements
  /\ JSArray.length (IdentityMatrix.fill_diagonal elements index size _n) = _n
  /\ forall j, j < _n ->
       nth_error (JSArray.cells (IdentityMatrix.fill_diagonal elements index size _n)) j
       = if (index <=? j) && ((j - index) mod (size + 1) =? 0)
         then Some (Some 1%float)
         else nth_error (JSArray.cells elements) j.
Proof.
  funelim (IdentityMatrix.fill_diagonal elements index size _n); intros Hlen Hmax.
  - (* index < _n: one write, then the rest of the loop *)
    rewrite set_in_range in * by (rewrite ?Hlen; auto).
    match goal with
    | IH : _ -> _ -> _ /\ _ /\ _ |- _ =>
        destruct IH as (IHp & IHl & IHc);
          [unfold JSArray.length; simpl; rewrite update_length; exact Hlen
          |exact Hmax|]
    end.
    simpl in IHp. split; [exact IHp|]. split; [exact IHl|].
    intros j Hj. rewrite (IHc j Hj). simpl.
    destruct (Nat.leb_spec (index + (size + 1)) j) as [Hfar|Hnear].
    + (* a later multiple of the step *)
      destruct (Nat.leb_spec index j); [|lia]. simpl.
      replace (j - index) with ((j - (index + (size + 1))) + 1 * (size + 1)) by lia.
      rewrite Nat.Div0.mod_add.
      destruct ((j - (index + (size + 1))) mod (size + 1) =? 0); [reflexivity|].
      apply nth_error_update_other. lia.
    + simpl. destruct (Nat.leb_spec index j) as [Hge|Hlt]; simpl.
      * destruct (Nat.eq_dec j index) as [->|Hne].
        -- rewrite Nat.sub_diag, Nat.Div0.mod_0_l. simpl.
           apply nth_error_update_same.
           unfold JSArray.length in Hlen. lia.
        -- rewrite (Nat.mod_small (j - index)) by lia.
           destruct (Nat.eqb_spec (j - index) 0); [lia|].
           apply nth_error_update_other. exact Hne.
      * apply nth_error_update_other. lia.
  - (* index >= _n: the loop is over *)
    split; [reflexivity|]. split; [exact Hlen|].
    intros j Hj. destruct (Nat.leb_spec index j); [lia|]. reflexivity.
Qed.

End DiagonalLoop.

Section ElementValues.
Import IdentityMatrix.

(** The flat row-major offset of a position is a multiple of [n + 1]
    exactly on the diagonal. *)
Lemma offset_mod_diagonal n r c :
  r < n -> c < n -> ((r * n + c) mod (n + 1) =? 0) = (r =? c).
Proof.
  intros Hr Hc. destruct (le_lt_dec r c) as [Hle|Hlt].
  - replace (r * n + c) with ((c - r) + r * (n + 1)) by lia.
    rewrite Nat.Div0.mod_add, Nat.mod_small by lia.
    destruct (Nat.eqb_spec (c - r) 0), (Nat.eqb_spec r c); auto; lia.
  - replace (r * n + c) with ((n + 1 + c - r) + (r - 1) * (n + 1)) by nia.
    rewrite Nat.Div0.mod_add, Nat.mod_small by lia.
    destruct (Nat.eqb_spec (n + 1 + c - r) 0), (Nat.eqb_spec r c); auto; lia.
Qed.

Lemma zeros_slot len j :
  j < len -> nth_error (JSArray.cells (zeros len)) j = Some (Some 0%float).
Proof.
  intros H. unfold zeros, JSArray.fill. simpl.
  rewrite nth_error_map, nth_error_repeat by exact H. reflexivity.
Qed.

Lemma zeros_length len : JSArray.length (zeros len) = len.
Proof.
  unfold zeros, JSArray.fill, JSArray.length. simpl.
  now rewrite length_map, repeat_length.
Qed.

(** The element stored at the offset of position (r + 1, c + 1). *)
Lemma identity_element n r c :
  (Z.of_nat (n * n) <= JSArray.max_length)%Z -> r < n -> c < n ->
  nth_error (JSArray.cells (elements (identity n))) (r * n + c)
  = Some (Some (if r =? c then 1%float else 0%float)).
Proof.
  intros Hmax Hr Hc. simpl.
  assert (Hj : r * n + c < n * n) by nia.
  destruct (fill_diagonal_slots (zeros (n * n)) 0 n (n * n)
              (zeros_length (n * n)) Hmax)
    as (_ & _ & Hslots).
  rewrite (Hslots _ Hj). simpl. rewrite Nat.sub_0_r.
  rewrite (offset_mod_diagonal n r c Hr Hc).
  destruct (r =? c); [reflexivity|]. apply zeros_slot. exact Hj.
Qed.

End ElementValues.

(** ** The iterators *)

Section Traversals.
Import IdentityMatrix.
Context {T St : Type}.

Lemma bind_Return {A} (c : completion A) : bind c (fun a => Return a) = c.
Proof. destruct c; reflexivity. Qed.

Lemma foldM_app {X S} (f : X -> S -> completion S) l1 l2 s :
  foldM f (l1 ++ l2) s = bind (foldM f l1 s) (foldM f l2).
Proof.
  revert s. induction l1 as [|x l1 IH]; intros s; simpl.
  - reflexivity.
  - destruct (f x s) as [s'|e]; simpl; [apply IH|reflexivity].
Qed.

Lemma for_loop_plus {S} k1 k2 i (body : nat -> S -> completion S) s :
  for_loop (k1 + k2) i body s
  = bind (for_loop k1 i body s) (for_loop k2 (i + k1) body).
Proof.
  revert i s. induction k1 as [|k1 IH]; intros i s; simpl.
  - now rewrite Nat.add_0_r.
  - destruct (body i s) as [s'|e]; simpl; [|reflexivity].
    rewrite IH. do 2 f_equal. lia.
Qed.

Variable callback : T -> float -> Z -> Z -> Z -> t -> St -> completion St.
Variable thisArg : T.
Variable this : t.

(** From column [c] of row [r] to the end of that row: [k] calls, after
    which the counters stand at the start of row [r + 1]. *)
Lemma forEach_row_tail r k : forall c index s,
  1 <= k -> c + k = Size.columns (size this) + 1 ->
  Size.rows (size this) = Size.columns (size this) ->
  Z.of_nat index
  = ((Z.of_nat r - 1) * Z.of_nat (Size.columns (size this)) + (Z.of_nat c - 1))%Z ->
  for_loop k index
    (forEach_step callback thisArg this (Size.columns (size this)))
    (Z.of_nat r, Z.of_nat c, s)
  = bind (foldM (apply_entry_callback callback thisArg)
                (map (forEach_call this r) (seq c k)) s)
         (fun s' => Return (Z.of_nat (r + 1), 1%Z, s')).
Proof.
  induction k as [|k IH]; intros c index s Hk Hc Hsq Hidx; [lia|].
  cbn [for_loop seq map foldM].
  remember (map (forEach_call this r) (seq (S c) k)) as rest eqn:Hrest.
  unfold forEach_call, forEach_step, apply_entry_callback, kronecker.
  rewrite Hsq, <- Hidx.
  destruct (callback thisArg _ (Z.of_nat r) (Z.of_nat c) (Z.of_nat index) this s)
    as [s1|e]; cbn [bind]; [|reflexivity].
  fold (forEach_step callback thisArg this (Size.columns (size this))).
  subst rest. destruct k as [|k].
  - (* the last column of the row *)
    destruct (Z.gtb_spec (Z.of_nat c + 1) (Z.of_nat (Size.columns (size this))));
      [|lia].
    cbn. do 3 f_equal. lia.
  - destruct (Z.gtb_spec (Z.of_nat c + 1) (Z.of_nat (Size.columns (size this))));
      [lia|].
    cbn [bind].
    replace (Z.of_nat c + 1)%Z with (Z.of_nat (S c)) by lia.
    apply IH; lia.
Qed.

(** [R] whole rows, starting at row [r]. *)
Lemma forEach_rows R : forall r index s,
  Size.rows (size this) = Size.columns (size this) ->
  1 <= Size.columns (size this) ->
  Z.of_nat index = ((Z.of_nat r - 1) * Z.of_nat (Size.columns (size this)))%Z ->
  for_loop (R * Size.columns (size this)) index
    (forEach_step callback thisArg this (Size.columns (size this)))
    (Z.of_nat r, 1%Z, s)
  = bind (foldM (apply_entry_callback callback thisArg)
                (flat_map (fun r => map (forEach_call this r)
                                        (seq 1 (Size.columns (size this))))
                          (seq r R)) s)
         (fun s' => Return (Z.of_nat (r + R), 1%Z, s')).
Proof.
  induction R as [|R IH]; intros r index s Hsq Hn Hidx.
  - simpl. now rewrite Nat.add_0_r.
  - change (S R * Size.columns (size this))
      with (Size.columns (size this) + R * Size.columns (size this)).
    rewrite for_loop_plus.
    change (Z.of_nat r, 1%Z, s) with (Z.of_nat r, Z.of_nat 1, s).
    rewrite (@forEach_row_tail r (Size.columns (size this)) 1 index s)
      by (auto; lia).
    simpl flat_map. rewrite foldM_app, !bind_assoc.
    destruct (foldM (apply_entry_callback callback thisArg)
                    (map (forEach_call this r) (seq 1 (Size.columns (size this)))) s)
      as [s1|e]; simpl; [|reflexivity].
    rewrite (IH (r + 1) (index + Size.columns (size this)) s1 Hsq Hn) by nia.
    rewrite Nat.add_1_r.
    match goal with
    | |- bind ?c _ = bind ?c _ => destruct c; simpl; [|reflexivity]
    end.
    do 3 f_equal. lia.
Qed.

(** [forEach] makes exactly the calls of [forEach_calls], in that order,
    stopping early only if the callback throws. *)
Lemma forEach_trace s :
  Size.rows (size this) = Size.columns (size this) ->
  forEach this callback thisArg s
  = foldM (apply_entry_callback callback thisArg) (forEach_calls this) s.
Proof.
  intros Hsq. unfold forEach, forEach_calls. cbv zeta. rewrite Hsq.
  destruct (Nat.eq_dec (Size.columns (size this)) 0) as [Hzero|Hpos].
  - rewrite Hzero. reflexivity.
  - change (1%Z, 1%Z, s) with (Z.of_nat 1, 1%Z, s).
    rewrite (@forEach_rows (Size.columns (size this)) 1 0 s Hsq) by lia.
    rewrite bind_assoc. simpl. apply bind_Return.
Qed.

Variable row_callback : T -> JSArray.t float -> Z -> t -> St -> completion St.

Lemma forEachRow_from k : forall start s,
  (Z.of_nat (Size.rows (size this)) <= JSArray.max_length)%Z ->
  start + k <= Size.rows (size this) ->
  for_loop k start
    (fun i s =>
       row <- unit_row (Size.rows (size this)) (Z.of_nat i) ;;
       row_callback thisArg row (Z.of_nat i + 1)%Z this s)
    s
  = foldM (apply_row_callback row_callback thisArg)
          (map (fun r => (basis_row (Size.rows (size this)) (Z.of_nat r),
                          Z.of_nat r, this))
               (seq (S start) k)) s.
Proof.
  induction k as [|k IH]; intros start s Hmax Hk; [reflexivity|].
  cbn [for_loop seq map foldM].
  rewrite unit_row_in_range by (auto; lia).
  cbn [bind apply_row_callback].
  replace (Z.of_nat start + 1)%Z with (Z.of_nat (S start)) by lia.
  destruct (row_callback thisArg _ (Z.of_nat (S start)) this s) as [s1|e];
    cbn [bind]; [|reflexivity].
  apply IH; [exact Hmax|lia].
Qed.

(** [forEachRow] makes exactly the calls of [forEachRow_calls], in that
    order, stopping early only if the callback throws. *)
Lemma forEachRow_trace s :
  (Z.of_nat (Size.rows (size this)) <= JSArray.max_length)%Z ->
  forEachRow this row_callback thisArg s
  = foldM (apply_row_callback row_callback thisArg) (forEachRow_calls this) s.
Proof.
  intros Hmax. unfold forEachRow, forEachRow_calls. cbv zeta.
  apply forEachRow_from; [exact Hmax|lia].
Qed.

End Traversals.

Section Logs.
Import IdentityMatrix.

(** A logging callback records the calls made, in order. *)
Lemma foldM_log_entry calls : forall log,
  foldM (apply_entry_callback log_entry tt) calls log = Return (log ++ calls).
Proof.
  induction calls as [|[[[[e r] c] i] mx] calls IH]; intros log; simpl.
  - now rewrite app_nil_r.
  - rewrite IH, <- app_assoc. reflexivity.
Qed.

Lemma foldM_log_row calls : forall log,
  foldM (apply_row_callback log_row tt) calls log = Return (log ++ calls).
Proof.
  induction calls as [|[[a r] mx] calls IH]; intros log; simpl.
  - now rewrite app_nil_r.
  - rewrite IH, <- app_assoc. reflexivity.
Qed.

Lemma rows_of_columns_length {A} (f : nat -> nat -> A) n k : forall start,
  List.length (flat_map (fun r => map (f r) (seq 1 n)) (seq start k)) = k * n.
Proof.
  induction k as [|k IH]; intros start; simpl.
  - reflexivity.
  - rewrite length_app, length_map, length_seq, IH. reflexivity.
Qed.

Lemma forEach_calls_length this :
  List.length (forEach_calls this)
  = Size.rows (size this) * Size.rows (size this).
Proof. unfold forEach_calls. apply rows_of_columns_length. Qed.

Lemma forEachRow_calls_length this :
  List.length (forEachRow_calls this) = Size.rows (size this).
Proof.
  unfold forEachRow_calls. now rewrite length_map, length_seq.
Qed.

Lemma identity_square n : Size.rows (size (identity n)) = n
                          /\ Size.columns (size (identity n)) = n.
Proof. split; reflexivity. Qed.

End Logs.

(** ** Small runs *)

Section Runs.
Import IdentityMatrix.

Example constructor_2 :
  constructor 2
  = Return (mk (Size.mk 2 2) 4
              (JSArray.mk [Some 1; Some 0; Some 0; Some 1]%float [])
              2
              (JSArray.mk [Some (JSArray.mk [Some 1; Some 0]%float []);
                           Some (JSArray.mk [Some 0; Some 1]%float [])] [])
              (JSArray.mk [Some (JSArray.mk [Some 1; Some 0]%float []);
                           Some (JSArray.mk [Some 0; Some 1]%float [])] [])).
Proof. vm_compute. reflexivity. Qed.

(** Past the last row, [row] grows the array and leaves a hole. *)
Example row_past_the_end :
  row (identity 3) 5
  = Return (JSArray.mk [Some 0; Some 0; Some 0; None; Some 1]%float []).
Proof. vm_compute. reflexivity. Qed.

(** Before the first row, [row] stores the 1 under the key -1 and the
    three zeros stay. *)
Example row_before_the_start :
  row (identity 3) 0
  = Return (JSArray.mk [Some 0; Some 0; Some 0]%float [((-1)%Z, 1%float)]).
Proof. vm_compute. reflexivity. Qed.

Example mainDiagonal_3 :
  mainDiagonal (identity 3)
  = Return (JSArray.mk [Some 1; Some 1; Some 1]%float []).
Proof. vm_compute. reflexivity. Qed.

Example forEachRow_2 :
  forEachRow (identity 2) log_row tt []
  = Return [(JSArray.mk [Some 1; Some 0]%float [], 1%Z, identity 2);
            (JSArray.mk [Some 0; Some 1]%float [], 2%Z, identity 2)].
Proof. vm_compute. reflexivity. Qed.

(** A callback that throws at its second call ends the traversal there. *)
Example forEach_stops_at_throw :
  forEach (identity 2)
    (fun (_ : unit) _ _ _ index _ (count : nat) =>
       if (index =? 1)%Z then Throw TypeError else Return (S count))
    tt 0
  = Throw TypeError.
Proof. vm_compute. reflexivity. Qed.

Example methods_resolve :
  resolve_callee (identity 1) "entry" = Return "entry"%string
  /\ resolve_callee (identity 1) "toString" = Return "toString"%string
  /\ resolve_callee (identity 1) "rank" = Throw TypeError.
Proof. repeat split. Qed.

End Runs.

(** * The claims *)

Section AlgebraClaims.
Import Algebra.

(** C1, as stated, fails: with sequences of different lengths
    [linearCombination] returns a number (NaN when [p] is the longer one, a
    partial sum when [p] is the shorter one); it does not throw. *)
Lemma linearCombination_mismatch_returns :
  linearCombination [1; 2; 3]%float [4; 5]%float = Return nan
  /\ linearCombination [1; 2]%float [4; 5; 6]%float = Return 14%float
  /\ linearCombination [1; 2; 3]%float [4; 5]%float <> Throw DimensionMismatch.
Proof.
  split; [|split].
  - vm_compute. reflexivity.
  - vm_compute. reflexivity.
  - vm_compute. discriminate.
Qed.

(** C1, amended: for sequences [p] and [q] whose lengths differ,
    [linearCombination(p, q)] does not fail; it returns NaN when [p] is
    longer than [q], and the dot product of [p] with the first [length p]
    terms of [q] when [p] is shorter. *)
Theorem linearCombination_length_mismatch (p q : list float) :
  List.length p <> List.length q ->
  linearCombination p q
  = Return (if List.length p <? List.length q
            then dot_product p (firstn (List.length p) q)
            else nan).
Proof.
  intros Hne. destruct (Nat.ltb_spec (List.length p) (List.length q)) as [Hlt|Hge].
  - rewrite dot_product_firstn. apply linearCombination_short_p. lia.
  - apply linearCombination_long_p. lia.
Qed.

Lemma linearCombination_length_mismatch_witness :
  List.length [1; 2]%float <> List.length [4; 5; 6]%float
  /\ linearCombination [1; 2]%float [4; 5; 6]%float
     = Return (dot_product [1; 2]%float [4; 5]%float).
Proof.
  assert (H : List.length [1; 2]%float <> List.length [4; 5; 6]%float)
    by (simpl; discriminate).
  split; [exact H|].
  exact (@linearCombination_length_mismatch [1; 2]%float [4; 5; 6]%float H).
Defined.

(** C4: for sequences [p] and [q] of equal length,
    [linearCombination(p, q)] returns the sum over [i] of [p[i] * q[i]]
    (added in index order), and [linearCombination([1,2,3], [4,5,6])]
    returns 32. *)
Theorem linearCombination_dot_product :
  (forall p q : list float,
     List.length p = List.length q ->
     linearCombination p q = Return (dot_product p q))
  /\ linearCombination [1; 2; 3]%float [4; 5; 6]%float = Return 32%float.
Proof.
  split.
  - intros p q H. apply linearCombination_short_p. lia.
  - vm_compute. reflexivity.
Qed.

Lemma linearCombination_dot_product_witness :
  List.length [1; 2; 3]%float = List.length [4; 5; 6]%float
  /\ linearCombination [1; 2; 3]%float [4; 5; 6]%float
     = Return (dot_product [1; 2; 3]%float [4; 5; 6]%float).
Proof.
  split; [reflexivity|].
  exact (proj1 linearCombination_dot_product
           [1; 2; 3]%float [4; 5; 6]%float eq_refl).
Defined.

End AlgebraClaims.

Section IdentityMatrixClaims.
Import IdentityMatrix.

Lemma kronecker_sym r c : kronecker r c = kronecker c r.
Proof. unfold kronecker. now rewrite Z.eqb_sym. Qed.

Lemma basis_column_row n c : basis_column n c = basis_row n c.
Proof.
  unfold basis_column, basis_row. f_equal.
  apply map_ext. intros r. now rewrite kronecker_sym.
Qed.

Lemma forEachColumn_calls_rows this :
  Size.rows (size this) = Size.columns (size this) ->
  forEachColumn_calls this = forEachRow_calls this.
Proof.
  intros H. unfold forEachColumn_calls, forEachRow_calls. cbv zeta.
  rewrite H. apply map_ext. intros c. now rewrite basis_column_row.
Qed.

Lemma basis_row_length n r : JSArray.length (basis_row n r) = n.
Proof.
  unfold basis_row, JSArray.length. simpl.
  now rewrite length_map, length_seq.
Qed.

(** The element read at the flat offset of an in-range position. *)
Lemma identity_get n r c :
  (Z.of_nat (n * n) <= JSArray.max_length)%Z ->
  (1 <= r <= Z.of_nat n)%Z -> (1 <= c <= Z.of_nat n)%Z ->
  JSArray.get (elements (identity n)) ((r - 1) * Z.of_nat n + (c - 1))
  = Some (kronecker r c).
Proof.
  intros Hmax Hr Hc.
  assert (Hoff : ((r - 1) * Z.of_nat n + (c - 1)
                  = Z.of_nat (Z.to_nat (r - 1) * n + Z.to_nat (c - 1)))%Z) by nia.
  assert (Hlt : Z.to_nat (r - 1) * n + Z.to_nat (c - 1) < n * n) by nia.
  rewrite Hoff. unfold JSArray.get, JSArray.is_index.
  destruct (Z.leb_spec 0 (Z.of_nat (Z.to_nat (r - 1) * n + Z.to_nat (c - 1))));
    [|lia].
  destruct (Z.ltb_spec (Z.of_nat (Z.to_nat (r - 1) * n + Z.to_nat (c - 1)))
                       JSArray.max_length); [|lia].
  cbn [andb]. rewrite Nat2Z.id.
  rewrite identity_element by (auto; lia).
  unfold kronecker.
  destruct (Nat.eqb_spec (Z.to_nat (r - 1)) (Z.to_nat (c - 1))),
           (Z.eqb_spec r c); try reflexivity; lia.
Qed.

Lemma row_in_range n r :
  (Z.of_nat n <= JSArray.max_length)%Z -> (1 <= r <= Z.of_nat n)%Z ->
  row (identity n) r = Return (basis_row n r).
Proof.
  intros Hmax Hr. unfold row. cbn [size Size.rows identity].
  replace (r - 1)%Z with (Z.of_nat (Z.to_nat (r - 1))) by lia.
  rewrite unit_row_in_range by (auto; lia).
  do 2 f_equal. lia.
Qed.

(** C2, as stated, fails: on IdentityMatrix(3), [entry(5, 5)] returns 1 and
    [entry(0, 7)] returns 0, although 5, 0 and 7 lie outside [1, 3]. *)
Lemma entry_out_of_range_returns :
  bind (constructor 3) (fun m => entry m 5 5) = Return 1%float
  /\ bind (constructor 3) (fun m => entry m 0 7) = Return 0%float
  /\ bind (constructor 3) (fun m => entry m 5 5) <> Throw IndexOutOfRange.
Proof.
  split; [|split].
  - vm_compute. reflexivity.
  - vm_compute. reflexivity.
  - vm_compute. discriminate.
Qed.

(** C2, amended: [IdentityMatrix(n).entry(r, c)] checks no range; when [r]
    or [c] lies outside [1, n] it does not fail but returns 1 if [r] equals
    [c] and 0 otherwise. *)
Theorem entry_out_of_range (n : nat) (m : t) (r c : Z) :
  constructor n = Return m ->
  (r < 1 \/ Z.of_nat n < r \/ c < 1 \/ Z.of_nat n < c)%Z ->
  entry m r c = Return (kronecker r c).
Proof. intros _ _. reflexivity. Qed.

Lemma entry_out_of_range_witness :
  constructor 3 = Return (identity 3)
  /\ (5 < 1 \/ Z.of_nat 3 < 5 \/ 5 < 1 \/ Z.of_nat 3 < 5)%Z
  /\ entry (identity 3) 5 5 = Return 1%float.
Proof.
  assert (Hc : constructor 3 = Return (identity 3))
    by (vm_compute; reflexivity).
  assert (Hr : (5 < 1 \/ Z.of_nat 3 < 5 \/ 5 < 1 \/ Z.of_nat 3 < 5)%Z)
    by (right; left; reflexivity).
  split; [exact Hc|]. split; [exact Hr|].
  exact (@entry_out_of_range 3 (identity 3) 5%Z 5%Z Hc Hr).
Defined.

(** C3, as stated, fails: on IdentityMatrix(3), calling [swapRows] ends with
    the runtime's TypeError (the class has no such method), and assigning 5
    to [elements[1]] succeeds, after which [entry(1, 2)] is still 0. *)
Lemma mutation_attempts_not_Unsupported :
  bind (constructor 3) (fun m => resolve_callee m "swapRows") = Throw TypeError
  /\ bind (constructor 3) (fun m => resolve_callee m "swapRows")
     <> Throw Unsupported
  /\ bind (constructor 3)
       (fun m => bind (assign_element m 1 5%float) (fun m' => entry m' 1 2))
     = Return 0%float.
Proof.
  split; [|split].
  - vm_compute. reflexivity.
  - vm_compute. discriminate.
  - vm_compute. reflexivity.
Qed.

(** C3, amended: IdentityMatrix defines no row operation, so calling
    [swapRows], [scaleRow] or [addRowMultiple] on an instance fails with the
    runtime's TypeError, not with an Unsupported error; and an assignment to
    a slot of the instance's [elements] array is not rejected: it succeeds,
    and the size, the rank and every [entry(r, c)] stay as they were. *)
Theorem mutation_attempts (m : t) :
  resolve_callee m "swapRows" = Throw TypeError
  /\ resolve_callee m "scaleRow" = Throw TypeError
  /\ resolve_callee m "addRowMultiple" = Throw TypeError
  /\ forall (i : Z) (v : float),
       exists m', assign_element m i v = Return m'
                  /\ size m' = size m
                  /\ rank m' = rank m
                  /\ forall r c, entry m' r c = entry m r c.
Proof.
  repeat split.
  intros i v. eexists. repeat split.
Qed.

(** C5: on an IdentityMatrix of size [n], for [1 <= r <= n] and
    [1 <= c <= n], [entry(r, c)] returns 1 if [r = c] and 0 otherwise; on
    IdentityMatrix(3), [entry(2, 2)] returns 1 and [entry(1, 2)] returns 0. *)
Theorem entry_closed_form :
  (forall (n : nat) (m : t) (r c : Z),
     constructor n = Return m ->
     (1 <= r <= Z.of_nat n)%Z -> (1 <= c <= Z.of_nat n)%Z ->
     entry m r c = Return (kronecker r c)
     /\ (r = c -> entry m r c = Return 1%float)
     /\ (r <> c -> entry m r c = Return 0%float))
  /\ bind (constructor 3) (fun m => entry m 2 2) = Return 1%float
  /\ bind (constructor 3) (fun m => entry m 1 2) = Return 0%float.
Proof.
  split; [|split].
  - intros n m r c _ _ _. unfold entry. split; [reflexivity|]. split; intros H.
    + subst. now rewrite Z.eqb_refl.
    + destruct (Z.eqb_spec r c); [contradiction|reflexivity].
  - vm_compute. reflexivity.
  - vm_compute. reflexivity.
Qed.

Lemma entry_closed_form_witness :
  constructor 3 = Return (identity 3)
  /\ entry (identity 3) 2 3 = Return 0%float.
Proof.
  assert (Hc : constructor 3 = Return (identity 3))
    by (vm_compute; reflexivity).
  split; [exact Hc|].
  refine (proj1 (proj1 entry_closed_form 3 (identity 3) 2%Z 3%Z Hc _ _));
    split; vm_compute; discriminate.
Defined.

(** Closes [constructor k = Return (identity k)] for a literal [k] by
    running the constructor. *)
Ltac run_constructor := vm_compute; reflexivity.

(** C6: on an IdentityMatrix of size [n], [forEach] calls its callback
    exactly [n * n] times, once per entry in row-major order, with the entry
    (1 on the diagonal, 0 elsewhere), the row number, the column number and
    the flat 0-indexed index; [forEachRow] calls its callback once per row,
    rows 1 to [n] in order, with that row's entries; [forEachColumn] calls
    its callback once per column; and a repeated call makes the same calls
    again. *)
Theorem iterators_calls (n : nat) (m : t) :
  constructor n = Return m ->
  (forall (T St : Type) callback (thisArg : T) (s : St),
     forEach m callback thisArg s
     = foldM (apply_entry_callback callback thisArg) (forEach_calls m) s)
  /\ forEach_calls m
     = flat_map (fun r => map (fun c =>
                   (kronecker (Z.of_nat r) (Z.of_nat c), Z.of_nat r, Z.of_nat c,
                    ((Z.of_nat r - 1) * Z.of_nat n + (Z.of_nat c - 1))%Z, m))
                 (seq 1 n)) (seq 1 n)
  /\ List.length (forEach_calls m) = n * n
  /\ (forall (T St : Type) callback (thisArg : T) (s : St),
        forEachRow m callback thisArg s
        = foldM (apply_row_callback callback thisArg) (forEachRow_calls m) s)
  /\ forEachRow_calls m
     = map (fun r => (basis_row n (Z.of_nat r), Z.of_nat r, m)) (seq 1 n)
  /\ (forall (T St : Type) callback (thisArg : T) (s : St),
        forEachColumn m callback thisArg s
        = foldM (apply_row_callback callback thisArg) (forEachColumn_calls m) s)
  /\ forEachColumn_calls m
     = map (fun c => (basis_column n (Z.of_nat c), Z.of_nat c, m)) (seq 1 n)
  /\ (forall log, forEach m log_entry tt log = Return (log ++ forEach_calls m))
  /\ (forall log, forEachRow m log_row tt log = Return (log ++ forEachRow_calls m))
  /\ (forall log,
        forEachColumn m log_row tt log = Return (log ++ forEachColumn_calls m)).
Proof.
  intros Hc. destruct (constructor_Return n m Hc) as [Hmax ->].
  pose proof (square_bound _ Hmax) as Hn.
  assert (Hsq : Size.rows (size (identity n)) = Size.columns (size (identity n)))
    by reflexivity.
  assert (Hrow : forall (T St : Type) callback (thisArg : T) (s : St),
             forEachRow (identity n) callback thisArg s
             = foldM (apply_row_callback callback thisArg)
                     (forEachRow_calls (identity n)) s)
    by (intros; apply forEachRow_trace; exact Hn).
  repeat match goal with |- _ /\ _ => split end.
  - intros. apply forEach_trace. exact Hsq.
  - reflexivity.
  - apply forEach_calls_length.
  - exact Hrow.
  - reflexivity.
  - intros. rewrite (forEachColumn_calls_rows _ Hsq). apply Hrow.
  - reflexivity.
  - intros log. rewrite forEach_trace by exact Hsq. apply foldM_log_entry.
  - intros log. rewrite Hrow. apply foldM_log_row.
  - intros log. unfold forEachColumn.
    rewrite (forEachColumn_calls_rows _ Hsq), Hrow. apply foldM_log_row.
Qed.

Lemma iterators_calls_witness :
  constructor 2 = Return (identity 2)
  /\ forEach (identity 2) log_entry tt []
     = Return [(1%float, 1%Z, 1%Z, 0%Z, identity 2);
               (0%float, 1%Z, 2%Z, 1%Z, identity 2);
               (0%float, 2%Z, 1%Z, 2%Z, identity 2);
               (1%float, 2%Z, 2%Z, 3%Z, identity 2)].
Proof.
  assert (Hc : constructor 2 = Return (identity 2)) by run_constructor.
  split; [exact Hc|].
  destruct (@iterators_calls 2 (identity 2) Hc)
    as (_ & _ & _ & _ & _ & _ & _ & Hlog & _).
  rewrite (Hlog []). reflexivity.
Defined.

(** C7: for every IdentityMatrix [M], [M.transpose] is a matrix equal to [M]
    (same size, same entry at every position), and transposing twice gives
    a matrix equal to [M]. *)
Theorem transpose_is_identity (n : nat) (m : t) :
  constructor n = Return m ->
  transpose m = Return m
  /\ bind (transpose m) transpose = Return m
  /\ forall m', transpose m = Return m' ->
       size m' = size m /\ forall r c, entry m' r c = entry m r c.
Proof.
  intros Hc. destruct (constructor_Return n m Hc) as [Hmax ->].
  assert (Ht : transpose (identity n) = Return (identity n)).
  { unfold transpose, clone. cbn [size identity Size.rows].
    apply constructor_in_range. exact Hmax. }
  split; [exact Ht|]. split.
  - rewrite Ht. exact Ht.
  - intros m' Hm'. rewrite Ht in Hm'. inversion Hm'. split; reflexivity.
Qed.

Lemma transpose_is_identity_witness :
  constructor 3 = Return (identity 3)
  /\ bind (transpose (identity 3)) transpose = Return (identity 3).
Proof.
  assert (Hc : constructor 3 = Return (identity 3)) by run_constructor.
  split; [exact Hc|].
  exact (proj1 (proj2 (@transpose_is_identity 3 (identity 3) Hc))).
Defined.

(** C8: after [IdentityMatrix(n)] is constructed, [elements.length] equals
    [rows * columns] equals [n * n]; the element at flat offset
    [(r - 1) * n + (c - 1)] equals [entry(r, c)] for [1 <= r, c <= n]; and
    the [rows] property holds [n] rows, each of length [n]. *)
Theorem constructor_storage (n : nat) (m : t) :
  constructor n = Return m ->
  JSArray.length (elements m) = Size.rows (size m) * Size.columns (size m)
  /\ Size.rows (size m) * Size.columns (size m) = n * n
  /\ numberOfEntries m = n * n
  /\ (forall r c : Z,
        (1 <= r <= Z.of_nat n)%Z -> (1 <= c <= Z.of_nat n)%Z ->
        exists x, entry m r c = Return x
                  /\ JSArray.get (elements m) ((r - 1) * Z.of_nat n + (c - 1))
                     = Some x)
  /\ JSArray.length (rows m) = n
  /\ Forall (fun slot => exists row,
                slot = Some row /\ JSArray.length row = n)
            (JSArray.cells (rows m)).
Proof.
  intros Hc. destruct (constructor_Return n m Hc) as [Hmax ->].
  destruct (@fill_diagonal_slots (zeros (n * n)) 0 n (n * n)
              (zeros_length (n * n)) Hmax) as (_ & Hlen & _).
  repeat match goal with |- _ /\ _ => split end.
  - exact Hlen.
  - reflexivity.
  - reflexivity.
  - intros r c Hr Hcol. exists (kronecker r c). split; [reflexivity|].
    apply identity_get; assumption.
  - unfold JSArray.length. cbn [rows identity basis_rows JSArray.cells].
    now rewrite length_map, length_seq.
  - cbn [rows identity basis_rows JSArray.cells].
    apply Forall_forall. intros slot Hin.
    apply in_map_iff in Hin. destruct Hin as (r & <- & _).
    eexists; split; [reflexivity|apply basis_row_length].
Qed.

Lemma constructor_storage_witness :
  constructor 3 = Return (identity 3)
  /\ JSArray.length (elements (identity 3)) = 3 * 3.
Proof.
  assert (Hc : constructor 3 = Return (identity 3)) by run_constructor.
  split; [exact Hc|].
  destruct (@constructor_storage 3 (identity 3) Hc) as (Hlen & Hsize & _).
  rewrite Hlen. exact Hsize.
Defined.

(** C9: the rank of IdentityMatrix(n) is [n]. *)
Theorem rank_is_size (n : nat) (m : t) :
  constructor n = Return m -> rank m = n.
Proof.
  intros Hc. destruct (constructor_Return n m Hc) as [_ ->]. reflexivity.
Qed.

Lemma rank_is_size_witness :
  constructor 3 = Return (identity 3) /\ rank (identity 3) = 3.
Proof.
  assert (Hc : constructor 3 = Return (identity 3)) by run_constructor.
  split; [exact Hc|].
  exact (@rank_is_size 3 (identity 3) Hc).
Defined.

(** C10: on an IdentityMatrix of size [n], for [1 <= c <= n], [column(c)]
    returns the same sequence as [row(c)], the [c]-th standard basis vector
    of length [n]; and [forEachColumn] makes exactly the calls [forEachRow]
    makes. *)
Theorem column_is_row (n : nat) (m : t) (c : Z) :
  constructor n = Return m ->
  (1 <= c <= Z.of_nat n)%Z ->
  column m c = row m c
  /\ row m c = Return (basis_row n c)
  /\ column m c = Return (basis_column n c)
  /\ JSArray.length (basis_row n c) = n
  /\ (forall (T St : Type) callback (thisArg : T) (s : St),
        forEachColumn m callback thisArg s = forEachRow m callback thisArg s)
  /\ forEachColumn_calls m = forEachRow_calls m.
Proof.
  intros Hc Hrange. destruct (constructor_Return n m Hc) as [Hmax ->].
  pose proof (square_bound _ Hmax) as Hn.
  repeat match goal with |- _ /\ _ => split end.
  - reflexivity.
  - apply row_in_range; assumption.
  - unfold column. rewrite basis_column_row. apply row_in_range; assumption.
  - apply basis_row_length.
  - reflexivity.
  - apply forEachColumn_calls_rows. reflexivity.
Qed.

Lemma column_is_row_witness :
  constructor 3 = Return (identity 3)
  /\ (1 <= 2 <= Z.of_nat 3)%Z
  /\ column (identity 3) 2
     = Return (JSArray.mk [Some 0%float; Some 1%float; Some 0%float] []).
Proof.
  assert (Hc : constructor 3 = Return (identity 3)) by run_constructor.
  assert (Hr : (1 <= 2 <= Z.of_nat 3)%Z) by (split; vm_compute; discriminate).
  split; [exact Hc|]. split; [exact Hr|].
  destruct (@column_is_row 3 (identity 3) 2%Z Hc Hr) as (_ & _ & Hcol & _).
  rewrite Hcol. reflexivity.
Defined.

End IdentityMatrixClaims.

(** * Further properties *)

(** ** Binary64 multiplication *)

Lemma mul_nan_l (x : float) : (nan * x)%float = nan.
Proof.
  apply Prim2SF_inj. rewrite mul_spec.
  change (Prim2SF nan) with S754_nan. reflexivity.
Qed.

Lemma mul_comm (x y : float) : (x * y)%float = (y * x)%float.
Proof.
  apply Prim2SF_inj. rewrite !mul_spec.
  destruct (Prim2SF x) as [sx|sx| |sx mx ex], (Prim2SF y) as [sy|sy| |sy my ey];
    unfold SF64mul, SFmul; try reflexivity;
    try (rewrite (xorb_comm sx sy); reflexivity).
  rewrite (xorb_comm sx sy), (Pos.mul_comm mx my), (Z.add_comm ex ey).
  reflexivity.
Qed.

Section AlgebraFurther.
Import Algebra.

(** X1: for sequences of equal length the result does not depend on the
    order of the two arguments. *)
Theorem linearCombination_symmetric (p q : list float) :
  List.length p = List.length q ->
  linearCombination p q = linearCombination q p.
Proof.
  intros H. rewrite !linearCombination_sum, H. f_equal.
  apply sum_upto_ext. intros i Hi. unfold js_mul. apply mul_comm.
Qed.

Lemma linearCombination_symmetric_witness :
  List.length [1; 2]%float = List.length [3; 4]%float
  /\ linearCombination [1; 2]%float [3; 4]%float
     = linearCombination [3; 4]%float [1; 2]%float.
Proof.
  split; [reflexivity|].
  exact (linearCombination_symmetric [1; 2]%float [3; 4]%float eq_refl).
Defined.

Lemma get_app_left a b i : i < List.length a -> get (a ++ b) i = get a i.
Proof. intros H. unfold get. now rewrite nth_error_app1. Qed.

Lemma get_app_middle a x : get (a ++ [x]) (List.length a) = Number x.
Proof.
  unfold get. rewrite nth_error_app2, Nat.sub_diag by lia. reflexivity.
Qed.

(** X2: appending one term to each of two sequences of equal length adds
    the product of the two new terms to the result. *)
Theorem linearCombination_snoc (p q : list float) (a b : float) :
  List.length p = List.length q ->
  linearCombination (p ++ [a]) (q ++ [b])
  = bind (linearCombination p q) (fun s => Return (s + a * b)%float).
Proof.
  intros H. rewrite !linearCombination_sum. cbn [bind].
  rewrite length_app. cbn [List.length]. rewrite Nat.add_1_r. cbn [sum_upto].
  rewrite get_app_middle, H, get_app_middle. unfold js_mul at 2. cbn [ToNumber].
  do 2 f_equal. rewrite <- H. apply sum_upto_ext. intros i Hi.
  rewrite !get_app_left by lia. reflexivity.
Qed.

Lemma linearCombination_snoc_witness :
  List.length [1; 2]%float = List.length [4; 5]%float
  /\ linearCombination [1; 2; 3]%float [4; 5; 6]%float
     = bind (linearCombination [1; 2]%float [4; 5]%float)
            (fun s => Return (s + 3 * 6)%float).
Proof.
  split; [reflexivity|].
  exact (linearCombination_snoc [1; 2]%float [4; 5]%float 3%float 6%float eq_refl).
Defined.

(** X3: a NaN among the terms that are multiplied makes the result NaN. *)
Theorem linearCombination_nan (p q : list float) (i : nat) :
  i < List.length p -> i < List.length q ->
  nth i p 0%float = nan \/ nth i q 0%float = nan ->
  linearCombination p q = Return nan.
Proof.
  intros Hp Hq Hnan. rewrite linearCombination_sum. f_equal.
  apply sum_upto_nan with (k := i); [exact Hp|].
  rewrite !get_in_range by assumption. unfold js_mul. cbn [ToNumber].
  destruct Hnan as [-> | ->]; [apply mul_nan_l|apply mul_nan_r].
Qed.

Lemma linearCombination_nan_witness :
  1 < List.length [1; nan; 3]%float
  /\ 1 < List.length [4; 5; 6]%float
  /\ linearCombination [1; nan; 3]%float [4; 5; 6]%float = Return nan.
Proof.
  assert (Hp : 1 < List.length [1; nan; 3]%float) by (cbn; lia).
  assert (Hq : 1 < List.length [4; 5; 6]%float) by (cbn; lia).
  split; [exact Hp|]. split; [exact Hq|].
  exact (linearCombination_nan [1; nan; 3]%float [4; 5; 6]%float 1 Hp Hq
           (or_introl eq_refl)).
Defined.

End AlgebraFurther.

(** Closes an equation between closed terms by evaluating both sides. *)
Ltac by_running := vm_compute; reflexivity.

Section IdentityMatrixFurther.
Import IdentityMatrix.


Lemma fill_repeat_seq {A} (v : A) (f : nat -> A) len : forall start,
  (forall i, f i = v) ->
  map (fun _ : option A => Some v) (repeat None len)
  = map (fun i => Some (f i)) (seq start len).
Proof.
  induction len as [|len IH]; intros start Hf; simpl.
  - reflexivity.
  - rewrite Hf. f_equal. apply IH. exact Hf.
Qed.

(** X5: [mainDiagonal()] returns [n] entries, the [i]-th being what
    [entry(i, i)] returns. *)
Theorem mainDiagonal_entries (n : nat) (m : t) :
  constructor n = Return m ->
  exists a,
    mainDiagonal m = Return a
    /\ JSArray.length a = n
    /\ forall i : Z, (1 <= i <= Z.of_nat n)%Z ->
         exists x, entry m i i = Return x /\ JSArray.get a (i - 1) = Some x.
Proof.
  intros Hc. destruct (constructor_Return n m Hc) as [Hmax ->].
  pose proof (square_bound _ Hmax) as Hn.
  unfold mainDiagonal. cbn [size identity Size.rows].
  rewrite (@create_in_range _ n Hn). cbn [bind]. eexists. split; [reflexivity|].
  unfold JSArray.fill, JSArray.length. cbn [JSArray.cells JSArray.props].
  split; [now rewrite length_map, repeat_length|].
  intros i Hi. exists 1%float. unfold entry. rewrite Z.eqb_refl.
  split; [reflexivity|].
  unfold JSArray.get, JSArray.is_index. cbn [JSArray.cells].
  destruct (Z.leb_spec 0 (i - 1)); [|lia].
  destruct (Z.ltb_spec (i - 1) JSArray.max_length); [|lia]. cbn [andb].
  rewrite nth_error_map, nth_error_repeat by lia. reflexivity.
Qed.

Lemma mainDiagonal_entries_witness :
  constructor 3 = Return (identity 3)
  /\ exists a, mainDiagonal (identity 3) = Return a /\ JSArray.length a = 3.
Proof.
  assert (Hc : constructor 3 = Return (identity 3)) by by_running.
  split; [exact Hc|].
  destruct (mainDiagonal_entries 3 (identity 3) Hc) as (a & Ha & Hlen & _).
  exists a. split; [exact Ha|exact Hlen].
Defined.

Lemma first_nonzero_zeros n start (r : Z) :
  (forall c, start <= c < start + n -> r <> Z.of_nat c) ->
  first_nonzero (map (fun c => Some (kronecker r (Z.of_nat c))) (seq start n))
  = None.
Proof.
  revert start. induction n as [|n IH]; intros start H; simpl.
  - reflexivity.
  - rewrite kronecker_off by (apply H; lia).
    change (0 =? 0)%float with true. cbv iota.
    apply IH. intros c Hc. apply H. lia.
Qed.

Lemma first_nonzero_basis n start (r : nat) :
  start <= r < start + n ->
  first_nonzero (map (fun c => Some (kronecker (Z.of_nat r) (Z.of_nat c)))
                     (seq start n))
  = Some 1%float.
Proof.
  revert start. induction n as [|n IH]; intros start H; [lia|]. simpl.
  destruct (Nat.eq_dec r start) as [->|Hne].
  - rewrite kronecker_diag. reflexivity.
  - rewrite kronecker_off by lia.
    change (0 =? 0)%float with true. cbv iota. apply IH. lia.
Qed.

(** What [row(r)] returns below the first row: the zeros, and the 1 stored
    under the key [r - 1]. *)
Lemma row_below n r :
  (Z.of_nat n <= JSArray.max_length)%Z -> (r < 1)%Z ->
  row (identity n) r
  = Return (JSArray.mk (map (fun _ : option float => Some 0%float) (repeat None n))
                       [((r - 1)%Z, 1%float)]).
Proof.
  intros Hn Hr. unfold row, unit_row. cbn [size identity Size.rows].
  rewrite (@create_in_range _ n Hn). cbn [bind].
  unfold JSArray.set, JSArray.is_index.
  destruct (Z.leb_spec 0 (r - 1)); [lia|]. reflexivity.
Qed.

(** What [row(r)] returns past the last row: the zeros, holes up to
    position [r - 1], and the 1 there. *)
Lemma row_above n r :
  (Z.of_nat n <= JSArray.max_length)%Z ->
  (Z.of_nat n < r <= JSArray.max_length)%Z ->
  row (identity n) r
  = Return (JSArray.mk
              (map (fun _ : option float => Some 0%float) (repeat None n)
               ++ repeat None (Z.to_nat r - 1 - n) ++ [Some 1%float]) []).
Proof.
  intros Hn Hr. unfold row, unit_row. cbn [size identity Size.rows].
  rewrite (@create_in_range _ n Hn). cbn [bind].
  unfold JSArray.set, JSArray.is_index, JSArray.fill, JSArray.length.
  cbn [JSArray.cells JSArray.props].
  destruct (Z.leb_spec 0 (r - 1)); [|lia].
  destruct (Z.ltb_spec (r - 1) JSArray.max_length); [|lia]. cbn [andb].
  rewrite length_map, repeat_length.
  destruct (Nat.ltb_spec (Z.to_nat (r - 1)) n); [lia|].
  replace (Z.to_nat (r - 1) - n) with (Z.to_nat r - 1 - n) by lia.
  reflexivity.
Qed.

(** X6: [row(r)] never throws.  For [r] in [1, n] it returns the [r]-th
    basis row; for [r] past [n] (up to 2^32 - 1) an array of length [r]: the
    [n] zeros, then holes, then a 1; for [r] below 1 the [n] zeros alone,
    of length [n]. *)
Theorem row_shapes (n : nat) (m : t) (r : Z) :
  constructor n = Return m ->
  exists a,
    row m r = Return a
    /\ ((1 <= r <= Z.of_nat n)%Z -> a = basis_row n r)
    /\ ((Z.of_nat n < r <= JSArray.max_length)%Z ->
        JSArray.length a = Z.to_nat r
        /\ JSArray.get a (r - 1) = Some 1%float
        /\ (forall j, (0 <= j < Z.of_nat n)%Z -> JSArray.get a j = Some 0%float)
        /\ (forall j, (Z.of_nat n <= j < r - 1)%Z -> JSArray.get a j = None))
    /\ ((r < 1)%Z ->
        JSArray.length a = n
        /\ forall j, (0 <= j < Z.of_nat n)%Z -> JSArray.get a j = Some 0%float).
Proof.
  intros Hc. destruct (constructor_Return n m Hc) as [Hmax ->].
  pose proof (square_bound _ Hmax) as Hn.
  destruct (unit_row_returns n (r - 1) Hn) as [a Ha].
  exists a. split; [exact Ha|]. split; [|split].
  - intros Hr. pose proof (row_in_range n r Hn Hr) as H.
    unfold row in H. cbn [size identity Size.rows] in H.
    rewrite Ha in H. now inversion H.
  - intros Hr. pose proof (row_above n r Hn Hr) as H.
    unfold row in H. cbn [size identity Size.rows] in H.
    rewrite Ha in H. inversion H as [Heq]. clear H Ha.
    unfold JSArray.length, JSArray.get, JSArray.is_index.
    cbn [JSArray.cells JSArray.props].
    split; [|split; [|split]].
    + rewrite !length_app, length_map, !repeat_length. cbn [List.length]. lia.
    + destruct (Z.leb_spec 0 (r - 1)); [|lia].
      destruct (Z.ltb_spec (r - 1) JSArray.max_length); [|lia]. cbn [andb].
      rewrite nth_error_app2 by (rewrite length_map, repeat_length; lia).
      rewrite length_map, repeat_length.
      rewrite nth_error_app2 by (rewrite repeat_length; lia).
      rewrite repeat_length.
      replace (Z.to_nat (r - 1) - n - (Z.to_nat r - 1 - n)) with 0 by lia.
      reflexivity.
    + intros j Hj.
      destruct (Z.leb_spec 0 j); [|lia].
      destruct (Z.ltb_spec j JSArray.max_length); [|lia]. cbn [andb].
      rewrite nth_error_app1 by (rewrite length_map, repeat_length; lia).
      rewrite nth_error_map, nth_error_repeat by lia. reflexivity.
    + intros j Hj.
      destruct (Z.leb_spec 0 j); [|lia].
      destruct (Z.ltb_spec j JSArray.max_length); [|lia]. cbn [andb].
      rewrite nth_error_app2 by (rewrite length_map, repeat_length; lia).
      rewrite length_map, repeat_length.
      rewrite nth_error_app1 by (rewrite repeat_length; lia).
      rewrite nth_error_repeat by lia. reflexivity.
  - intros Hr. pose proof (row_below n r Hn Hr) as H.
    unfold row in H. cbn [size identity Size.rows] in H.
    rewrite Ha in H. inversion H as [Heq]. clear H Ha.
    unfold JSArray.length, JSArray.get, JSArray.is_index.
    cbn [JSArray.cells JSArray.props].
    split; [now rewrite length_map, repeat_length|].
    intros j Hj.
    destruct (Z.leb_spec 0 j); [|lia].
    destruct (Z.ltb_spec j JSArray.max_length); [|lia]. cbn [andb].
    rewrite nth_error_map, nth_error_repeat by lia. reflexivity.
Qed.

Lemma row_shapes_witness :
  constructor 3 = Return (identity 3)
  /\ exists a, row (identity 3) 5 = Return a /\ JSArray.length a = 5.
Proof.
  assert (Hc : constructor 3 = Return (identity 3)) by by_running.
  assert (Hr : (Z.of_nat 3 < 5 <= JSArray.max_length)%Z)
    by (split; vm_compute; [reflexivity|discriminate]).
  split; [exact Hc|].
  destruct (row_shapes 3 (identity 3) 5 Hc) as (a & Ha & _ & Habove & _).
  destruct (Habove Hr) as (Hlen & _).
  exists a. split; [exact Ha|exact Hlen].
Defined.

(** X7: [leadingCoefficient(r)] returns 1 whatever [r] is.  For [r] in
    [1, n] that is the first non-zero entry of [row(r)]; for [r] below 1,
    [row(r)] has no non-zero entry at all and the answer is 1 all the
    same. *)
Theorem leadingCoefficient_of_row (n : nat) (m : t) (r : Z) :
  constructor n = Return m ->
  leadingCoefficient m r = Return 1%float
  /\ ((1 <= r <= Z.of_nat n)%Z ->
      exists a, row m r = Return a
                /\ first_nonzero (JSArray.cells a) = Some 1%float)
  /\ ((r < 1)%Z ->
      exists a, row m r = Return a /\ first_nonzero (JSArray.cells a) = None).
Proof.
  intros Hc. destruct (constructor_Return n m Hc) as [Hmax ->].
  pose proof (square_bound _ Hmax) as Hn.
  split; [reflexivity|]. split; intros Hr.
  - exists (basis_row n r). split; [apply row_in_range; assumption|].
    unfold basis_row. cbn [JSArray.cells].
    replace r with (Z.of_nat (Z.to_nat r)) by lia.
    apply first_nonzero_basis. lia.
  - eexists. split; [apply row_below; assumption|].
    cbn [JSArray.cells]. clear. induction n as [|n IH]; [reflexivity|].
    cbn [repeat map first_nonzero].
    change (0 =? 0)%float with true. cbv iota. exact IH.
Qed.

Lemma leadingCoefficient_of_row_witness :
  constructor 3 = Return (identity 3)
  /\ leadingCoefficient (identity 3) 0 = Return 1%float
  /\ exists a, row (identity 3) 0 = Return a
               /\ first_nonzero (JSArray.cells a) = None.
Proof.
  assert (Hc : constructor 3 = Return (identity 3)) by by_running.
  split; [exact Hc|].
  destruct (leadingCoefficient_of_row 3 (identity 3) 0 Hc) as (Hl & _ & Hlow).
  split; [exact Hl|]. apply Hlow. reflexivity.
Defined.

Lemma basis_rows_get n (i : nat) :
  (Z.of_nat n <= JSArray.max_length)%Z -> i < n ->
  JSArray.get (basis_rows n) (Z.of_nat i)
  = Some (basis_row n (Z.of_nat (S i))).
Proof.
  intros Hn Hi. unfold JSArray.get, JSArray.is_index, basis_rows.
  cbn [JSArray.cells].
  destruct (Z.leb_spec 0 (Z.of_nat i)); [|lia].
  destruct (Z.ltb_spec (Z.of_nat i) JSArray.max_length); [|lia]. cbn [andb].
  rewrite Nat2Z.id, nth_error_map, nth_error_seq.
  destruct (Nat.ltb_spec i n); [|lia]. reflexivity.
Qed.

(** X8: the [rows] and [columns] properties agree with the accessors:
    for [r] in [1, n], [rows[r - 1]] is what [row(r)] returns and
    [columns[r - 1]] is what [column(r)] returns. *)
Theorem rows_property_is_row (n : nat) (m : t) (r : Z) :
  constructor n = Return m ->
  (1 <= r <= Z.of_nat n)%Z ->
  exists a,
    row m r = Return a
    /\ JSArray.get (rows m) (r - 1) = Some a
    /\ column m r = Return a
    /\ JSArray.get (columns m) (r - 1) = Some a.
Proof.
  intros Hc Hr. destruct (constructor_Return n m Hc) as [Hmax ->].
  pose proof (square_bound _ Hmax) as Hn.
  exists (basis_row n r).
  assert (Hget : JSArray.get (basis_rows n) (r - 1) = Some (basis_row n r)).
  { replace (r - 1)%Z with (Z.of_nat (Z.to_nat (r - 1))) by lia.
    rewrite basis_rows_get by (auto; lia). do 2 f_equal. lia. }
  repeat split; try (apply row_in_range; assumption); exact Hget.
Qed.

Lemma rows_property_is_row_witness :
  constructor 3 = Return (identity 3)
  /\ (1 <= 2 <= Z.of_nat 3)%Z
  /\ exists a, row (identity 3) 2 = Return a
               /\ JSArray.get (rows (identity 3)) (2 - 1) = Some a.
Proof.
  assert (Hc : constructor 3 = Return (identity 3)) by by_running.
  assert (Hr : (1 <= 2 <= Z.of_nat 3)%Z) by (split; vm_compute; discriminate).
  split; [exact Hc|]. split; [exact Hr|].
  destruct (rows_property_is_row 3 (identity 3) 2 Hc Hr) as (a & Ha & Hg & _).
  exists a. split; [exact Ha|exact Hg].
Defined.

(** Reading a list made of blocks of one length [n]: position
    [r * n + c] is position [c] of block [r]. *)
Lemma nth_error_blocks {X Y} (f : X -> list Y) n (l : list X) : forall r c,
  (forall x, List.length (f x) = n) -> c < n ->
  nth_error (flat_map f l) (r * n + c)
  = match nth_error l r with
    | Some x => nth_error (f x) c
    | None => None
    end.
Proof.
  induction l as [|x l IH]; intros r c Hlen Hc.
  - cbn [flat_map]. now rewrite !nth_error_nil.
  - cbn [flat_map]. destruct r as [|r].
    + cbn [Nat.mul Nat.add nth_error].
      apply nth_error_app1. rewrite Hlen. exact Hc.
    + rewrite nth_error_app2 by (rewrite Hlen; nia).
      rewrite Hlen. replace (S r * n + c - n) with (r * n + c) by nia.
      cbn [nth_error]. apply IH; assumption.
Qed.

(** X9: [elements] is the row-major flattening of [rows]: the rows of the
    [rows] property laid end to end. *)
Theorem elements_flatten_rows (n : nat) (m : t) :
  constructor n = Return m ->
  JSArray.cells (elements m) = flatten_rows (rows m).
Proof.
  intros Hc. destruct (constructor_Return n m Hc) as [Hmax ->].
  destruct (fill_diagonal_slots (zeros (n * n)) 0 n (n * n)
              (zeros_length (n * n)) Hmax) as (_ & Hlen & _).
  unfold flatten_rows. cbn [rows identity basis_rows JSArray.cells].
  rewrite flat_map_concat_map, map_map, <- flat_map_concat_map.
  assert (Hblock : forall r, List.length (JSArray.cells (basis_row n (Z.of_nat r))) = n)
    by (intros r; apply basis_row_length).
  apply nth_error_ext. intros j.
  destruct (Nat.lt_ge_cases j (n * n)) as [Hj|Hj].
  - assert (Hn : 0 < n) by nia.
    assert (Hdiv : j = j / n * n + j mod n)
      by (rewrite Nat.mul_comm; apply Nat.div_mod_eq).
    assert (Hc' : j mod n < n) by (apply Nat.mod_upper_bound; lia).
    assert (Hr' : j / n < n) by (apply Nat.Div0.div_lt_upper_bound; nia).
    rewrite Hdiv.
    rewrite (nth_error_blocks
               (fun r => JSArray.cells (basis_row n (Z.of_nat r))) n
               (seq 1 n) (j / n) (j mod n) Hblock Hc').
    rewrite identity_element by assumption.
    rewrite nth_error_seq. destruct (Nat.ltb_spec (j / n) n); [|lia].
    unfold basis_row. cbn [JSArray.cells].
    rewrite nth_error_map, nth_error_seq.
    destruct (Nat.ltb_spec (j mod n) n); [|lia]. cbn [option_map].
    unfold kronecker.
    destruct (Nat.eqb_spec (j / n) (j mod n)),
             (Z.eqb_spec (Z.of_nat (1 + j / n)) (Z.of_nat (1 + j mod n)));
      try reflexivity; lia.
  - cbn [elements identity]. unfold JSArray.length in Hlen.
    rewrite (proj2 (nth_error_None _ _)) by lia.
    symmetry. apply nth_error_None.
    unfold basis_row. cbn [JSArray.cells].
    rewrite (rows_of_columns_length
               (fun r c => Some (kronecker (Z.of_nat r) (Z.of_nat c))) n n 1).
    exact Hj.
Qed.

Lemma elements_flatten_rows_witness :
  constructor 2 = Return (identity 2)
  /\ JSArray.cells (elements (identity 2)) = flatten_rows (rows (identity 2)).
Proof.
  assert (Hc : constructor 2 = Return (identity 2)) by by_running.
  split; [exact Hc|].
  exact (elements_flatten_rows 2 (identity 2) Hc).
Defined.

(** X10: at every call [forEach] makes, the entry passed is the element
    of [elements] at the index passed, and is what [entry(r, c)] returns
    for the row and column passed. *)
Theorem forEach_arguments_agree (n : nat) (m : t) :
  constructor n = Return m ->
  forall log, forEach m log_entry tt [] = Return log ->
  Forall (fun '(x, r, c, index, matrix) =>
            matrix = m
            /\ entry m r c = Return x
            /\ JSArray.get (elements m) index = Some x)
         log.
Proof.
  intros Hc log Hlog. destruct (constructor_Return n m Hc) as [Hmax ->].
  rewrite forEach_trace in Hlog by reflexivity.
  rewrite foldM_log_entry in Hlog. inversion Hlog as [Heq]. clear Hlog Heq.
  cbn [app]. apply Forall_forall. intros [[[[x r] c] index] matrix] Hin.
  unfold forEach_calls in Hin. cbn [size identity Size.rows] in Hin.
  apply in_flat_map in Hin. destruct Hin as (r' & Hr' & Hin).
  apply in_map_iff in Hin. destruct Hin as (c' & Heq & Hc').
  apply in_seq in Hr'. apply in_seq in Hc'.
  unfold forEach_call in Heq. cbn [size identity Size.rows] in Heq.
  inversion Heq. subst. clear Heq.
  split; [reflexivity|]. split; [reflexivity|].
  apply identity_get; [exact Hmax|lia|lia].
Qed.

Lemma forEach_arguments_agree_witness :
  constructor 2 = Return (identity 2)
  /\ Forall (fun '(x, r, c, index, matrix) =>
               matrix = identity 2
               /\ entry (identity 2) r c = Return x
               /\ JSArray.get (elements (identity 2)) index = Some x)
            (forEach_calls (identity 2)).
Proof.
  assert (Hc : constructor 2 = Return (identity 2)) by by_running.
  assert (Hlog : forEach (identity 2) log_entry tt []
                 = Return (forEach_calls (identity 2))) by by_running.
  split; [exact Hc|].
  exact (forEach_arguments_agree 2 (identity 2) Hc _ Hlog).
Defined.

Lemma row_indices (this : t) (r : nat) len : forall start,
  1 <= r -> 1 <= start ->
  map call_index (map (forEach_call this r) (seq start len))
  = map Z.of_nat (seq ((r - 1) * Size.rows (size this) + (start - 1)) len).
Proof.
  induction len as [|len IH]; intros start Hr Hs; [reflexivity|].
  cbn [seq map]. rewrite IH by lia.
  replace ((r - 1) * Size.rows (size this) + (S start - 1))
    with (S ((r - 1) * Size.rows (size this) + (start - 1))) by lia.
  f_equal. unfold forEach_call, call_index.
  rewrite Nat2Z.inj_add, Nat2Z.inj_mul, !Nat2Z.inj_sub by lia.
  reflexivity.
Qed.

Lemma rows_indices (this : t) k : forall start,
  map call_index
      (flat_map (fun r => map (forEach_call this r)
                              (seq 1 (Size.rows (size this))))
                (seq (S start) k))
  = map Z.of_nat (seq (start * Size.rows (size this))
                      (k * Size.rows (size this))).
Proof.
  induction k as [|k IH]; intros start; [reflexivity|].
  cbn [seq flat_map]. rewrite map_app, IH, row_indices by lia.
  replace (S k * Size.rows (size this))
    with (Size.rows (size this) + k * Size.rows (size this)) by lia.
  rewrite seq_app, map_app. do 3 f_equal; lia.
Qed.

(** X11: the flat indices [forEach] passes to its callback are
    0, 1, ..., n * n - 1, in this order. *)
Theorem forEach_indices (n : nat) (m : t) :
  constructor n = Return m ->
  forall log, forEach m log_entry tt [] = Return log ->
  map call_index log = map Z.of_nat (seq 0 (n * n)).
Proof.
  intros Hc log Hlog. destruct (constructor_Return n m Hc) as [Hmax ->].
  rewrite forEach_trace in Hlog by reflexivity.
  rewrite foldM_log_entry in Hlog. inversion Hlog as [Heq]. clear Hlog Heq.
  cbn [app]. unfold forEach_calls. cbv zeta.
  rewrite (rows_indices (identity n) (Size.rows (size (identity n))) 0).
  reflexivity.
Qed.

Lemma forEach_indices_witness :
  constructor 2 = Return (identity 2)
  /\ map call_index (forEach_calls (identity 2)) = [0; 1; 2; 3]%Z.
Proof.
  assert (Hc : constructor 2 = Return (identity 2)) by by_running.
  assert (Hlog : forEach (identity 2) log_entry tt []
                 = Return (forEach_calls (identity 2))) by by_running.
  split; [exact Hc|].
  exact (forEach_indices 2 (identity 2) Hc _ Hlog).
Defined.

(** X12: the row (column) [forEachRow] ([forEachColumn]) passes with the
    number [r] is what the accessor [row(r)] ([column(r)]) returns, and is
    the slot [r - 1] of the [rows] property. *)
Theorem forEachRow_arguments_agree (n : nat) (m : t) :
  constructor n = Return m ->
  forall log, forEachRow m log_row tt [] = Return log ->
  forEachColumn m log_row tt [] = Return log
  /\ Forall (fun '(a, r, matrix) =>
               matrix = m
               /\ row m r = Return a
               /\ column m r = Return a
               /\ JSArray.get (rows m) (r - 1) = Some a)
            log.
Proof.
  intros Hc log Hlog. split; [exact Hlog|].
  destruct (constructor_Return n m Hc) as [Hmax ->].
  pose proof (square_bound _ Hmax) as Hn.
  rewrite forEachRow_trace in Hlog by exact Hn.
  rewrite foldM_log_row in Hlog. inversion Hlog as [Heq]. clear Hlog Heq.
  cbn [app]. apply Forall_forall. intros [[a r] matrix] Hin.
  unfold forEachRow_calls in Hin. cbn [size identity Size.rows] in Hin.
  apply in_map_iff in Hin. destruct Hin as (r' & Heq & Hr').
  apply in_seq in Hr'. inversion Heq. subst. clear Heq.
  assert (Hrow : row (identity n) (Z.of_nat r')
                 = Return (basis_row n (Z.of_nat r')))
    by (apply row_in_range; [exact Hn|lia]).
  repeat split; try exact Hrow.
  cbn [rows identity].
  replace (Z.of_nat r' - 1)%Z with (Z.of_nat (r' - 1)) by lia.
  rewrite basis_rows_get by (auto; lia). do 3 f_equal. lia.
Qed.

Lemma forEachRow_arguments_agree_witness :
  constructor 2 = Return (identity 2)
  /\ forEachColumn (identity 2) log_row tt []
     = Return (forEachRow_calls (identity 2)).
Proof.
  assert (Hc : constructor 2 = Return (identity 2)) by by_running.
  assert (Hlog : forEachRow (identity 2) log_row tt []
                 = Return (forEachRow_calls (identity 2))) by by_running.
  split; [exact Hc|].
  exact (proj1 (forEachRow_arguments_agree 2 (identity 2) Hc _ Hlog)).
Defined.

End IdentityMatrixFurther.

(** ** The two modules together *)

Section RowsAndLinearCombination.
Import Algebra IdentityMatrix.

Lemma dense_map_Some {A B} (f : A -> B) (l : list A) :
  dense (map (fun x => Some (f x)) l) = Some (map f l).
Proof.
  induction l as [|x l IH]; simpl; [reflexivity|]. now rewrite IH.
Qed.

Lemma nth_basis n (r : Z) i :
  i < n ->
  nth i (map (fun c => kronecker r (Z.of_nat c)) (seq 1 n)) 0%float
  = kronecker r (Z.of_nat (S i)).
Proof.
  intros Hi.
  rewrite (nth_indep _ 0%float (kronecker r (Z.of_nat 0)))
    by (now rewrite length_map, length_seq).
  rewrite (map_nth (fun c => kronecker r (Z.of_nat c))), seq_nth by exact Hi.
  reflexivity.
Qed.

(** The partial sums of the products of two basis rows: 0 until the common
    diagonal position, if there is one, and 1 from there on. *)
Lemma sum_upto_kronecker (r c : Z) k :
  sum_upto k (fun i => (kronecker r (Z.of_nat (S i)) * kronecker c (Z.of_nat (S i)))%float)
  = if ((r =? c) && (1 <=? r) && (r <=? Z.of_nat k))%Z then 1%float else 0%float.
Proof.
  induction k as [|k IH].
  - cbn [sum_upto].
    destruct (r =? c)%Z, (Z.leb_spec 1 r), (Z.leb_spec r (Z.of_nat 0));
      cbn [andb]; try reflexivity; lia.
  - cbn [sum_upto]. rewrite IH. unfold kronecker.
    destruct (Z.eqb_spec r c) as [->|Hne].
    + destruct (Z.eqb_spec c (Z.of_nat (S k))) as [Hd|Hd];
        destruct (Z.leb_spec 1 c), (Z.leb_spec c (Z.of_nat k)),
                 (Z.leb_spec c (Z.of_nat (S k)));
        cbn [andb]; try reflexivity; lia.
    + cbn [andb].
      destruct (Z.eqb_spec r (Z.of_nat (S k))), (Z.eqb_spec c (Z.of_nat (S k)));
        try reflexivity; lia.
Qed.

(** X13: the rows of an identity matrix are orthonormal for
    [linearCombination]: for [r] and [c] in [1, n], the linear combination
    of [row(r)] and [row(c)] is what [entry(r, c)] returns, 1 if [r = c]
    and 0 otherwise. *)
Theorem rows_orthonormal (n : nat) (m : t) (r c : Z) :
  constructor n = Return m ->
  (1 <= r <= Z.of_nat n)%Z -> (1 <= c <= Z.of_nat n)%Z ->
  exists a b p q,
    row m r = Return a /\ dense (JSArray.cells a) = Some p
    /\ row m c = Return b /\ dense (JSArray.cells b) = Some q
    /\ linearCombination p q = entry m r c.
Proof.
  intros Hc Hr Hcol. destruct (constructor_Return n m Hc) as [Hmax ->].
  pose proof (square_bound _ Hmax) as Hn.
  exists (basis_row n r), (basis_row n c),
         (map (fun j => kronecker r (Z.of_nat j)) (seq 1 n)),
         (map (fun j => kronecker c (Z.of_nat j)) (seq 1 n)).
  split; [apply row_in_range; assumption|].
  split; [apply (dense_map_Some (fun j => kronecker r (Z.of_nat j)))|].
  split; [apply row_in_range; assumption|].
  split; [apply (dense_map_Some (fun j => kronecker c (Z.of_nat j)))|].
  rewrite linearCombination_short_p by (rewrite !length_map; lia).
  unfold entry, dot_product. f_equal.
  rewrite length_map, length_seq.
  rewrite (sum_upto_ext n _
             (fun i => (kronecker r (Z.of_nat (S i))
                        * kronecker c (Z.of_nat (S i)))%float))
    by (intros i Hi; now rewrite !nth_basis by exact Hi).
  rewrite sum_upto_kronecker.
  destruct (Z.eqb_spec r c), (Z.leb_spec 1 r), (Z.leb_spec r (Z.of_nat n));
    cbn [andb]; try reflexivity; lia.
Qed.

Lemma rows_orthonormal_witness :
  constructor 3 = Return (identity 3)
  /\ (1 <= 2 <= Z.of_nat 3)%Z /\ (1 <= 3 <= Z.of_nat 3)%Z
  /\ exists p q,
       linearCombination p q = entry (identity 3) 2 3.
Proof.
  assert (Hc : constructor 3 = Return (identity 3)) by by_running.
  assert (Hr : (1 <= 2 <= Z.of_nat 3)%Z) by (split; vm_compute; discriminate).
  assert (Hk : (1 <= 3 <= Z.of_nat 3)%Z) by (split; vm_compute; discriminate).
  split; [exact Hc|]. split; [exact Hr|]. split; [exact Hk|].
  destruct (rows_orthonormal 3 (identity 3) 2 3 Hc Hr Hk)
    as (_ & _ & p & q & _ & _ & _ & _ & H).
  exists p, q. exact H.
Defined.

End RowsAndLinearCombination.
